(** * adsys: the sssd backend ([internal/ad/backends/sss/sss.go])

    A shallow embedding of the backend's constructor [New], of its
    accessors [ServerFQDN] and [HostKrb5CCName], and of the D-Bus object
    path encoder [domainToObjectPath], followed by the properties the
    specification states about them; then the other methods of the
    backend and the image helpers of the end-to-end tests ([az]), with
    properties read off the code.

    Go strings are byte sequences: they are modelled as [string] (a list
    of [ascii], one per byte). A [rune] is a Unicode code point. A Go
    function with results [(v, err)] returns a pair whose second component
    is [None] for a nil error. Logging is left out. *)

From Stdlib Require Import String Ascii List Arith NArith Bool Lia.
From Stdlib Require Import ZArith Permutation Sorted.
Import ListNotations.
Local Open Scope string_scope.
Local Open Scope N_scope.

(** ** Go's string primitives *)

Module Go.

(** [rune] is int32 in Go; the values met here come from ranging over a
    string and are code points, hence never negative. *)
Definition rune := N.

Definition RuneError : rune := 0xFFFD.

Definition byteVal (b : ascii) : N := N_of_ascii b.

Definition between (lo hi x : N) : bool := (lo <=? x) && (x <=? hi).

(** [s[i:]] for [i <= len(s)]. *)
Fixpoint drop (n : nat) (s : string) : string :=
  match n, s with
  | O, _ => s
  | S _, EmptyString => EmptyString
  | S k, String _ t => drop k t
  end.

(** The table [first] of unicode/utf8 together with [acceptRanges]: for a
    lead byte, the length of the sequence it starts and the range accepted
    for the second byte; [None] for a byte that starts no sequence. *)
Definition first (x0 : N) : option (nat * N * N) :=
  if between 0xC2 0xDF x0 then Some (2%nat, 0x80, 0xBF)
  else if x0 =? 0xE0 then Some (3%nat, 0xA0, 0xBF)
  else if between 0xE1 0xEC x0 then Some (3%nat, 0x80, 0xBF)
  else if x0 =? 0xED then Some (3%nat, 0x80, 0x9F)
  else if between 0xEE 0xEF x0 then Some (3%nat, 0x80, 0xBF)
  else if x0 =? 0xF0 then Some (4%nat, 0x90, 0xBF)
  else if between 0xF1 0xF3 x0 then Some (4%nat, 0x80, 0xBF)
  else if x0 =? 0xF4 then Some (4%nat, 0x80, 0x8F)
  else None.

Definition byteAt (s : string) (i : nat) : N :=
  match String.get i s with
  | Some b => byteVal b
  | None => 0
  end.

(** utf8.DecodeRuneInString: the first code point of [s] and its width in
    bytes; [(RuneError, 1)] on an invalid or truncated sequence. *)
Definition DecodeRuneInString (s : string) : rune * nat :=
  match s with
  | EmptyString => (RuneError, 0%nat)
  | String b0 _ =>
    let s0 := byteVal b0 in
    if s0 <? 0x80 then (s0, 1%nat)
    else
      match first s0 with
      | None => (RuneError, 1%nat)
      | Some (sz, lo, hi) =>
        if (String.length s <? sz)%nat then (RuneError, 1%nat)
        else
          let s1 := byteAt s 1 in
          if negb (between lo hi s1) then (RuneError, 1%nat)
          else if (sz <=? 2)%nat then
            (N.lor (N.shiftl (N.land s0 0x1F) 6) (N.land s1 0x3F), 2%nat)
          else
            let s2 := byteAt s 2 in
            if negb (between 0x80 0xBF s2) then (RuneError, 1%nat)
            else if (sz <=? 3)%nat then
              (N.lor (N.shiftl (N.land s0 0x0F) 12)
                 (N.lor (N.shiftl (N.land s1 0x3F) 6) (N.land s2 0x3F)),
               3%nat)
            else
              let s3 := byteAt s 3 in
              if negb (between 0x80 0xBF s3) then (RuneError, 1%nat)
              else
                (N.lor (N.shiftl (N.land s0 0x07) 18)
                   (N.lor (N.shiftl (N.land s1 0x3F) 12)
                      (N.lor (N.shiftl (N.land s2 0x3F) 6) (N.land s3 0x3F))),
                 4%nat)
      end
  end.

(** The values [c] of [for _, c := range s], in order. Each iteration
    consumes at least one byte, so [String.length s] iterations are always
    enough (see [rangeString_fuel]). *)
Fixpoint rangeFrom (fuel : nat) (s : string) : list rune :=
  match fuel with
  | O => []
  | S k =>
    match s with
    | EmptyString => []
    | String _ _ =>
      let (c, size) := DecodeRuneInString s in
      c :: rangeFrom k (drop size s)
    end
  end.

Definition rangeString (s : string) : list rune :=
  rangeFrom (String.length s) s.

Definition byteOf (n : N) : ascii := ascii_of_N (n mod 256).

(** [string(c)] for a rune [c]: its UTF-8 encoding (utf8.AppendRune). *)
Definition runeToString (c : rune) : string :=
  if c <=? 0x7F then String (byteOf c) EmptyString
  else if c <=? 0x7FF then
    String (byteOf (N.lor 0xC0 (N.shiftr c 6)))
      (String (byteOf (N.lor 0x80 (N.land c 0x3F))) EmptyString)
  else if (0x10FFFF <? c) || between 0xD800 0xDFFF c then
    String (byteOf 0xEF) (String (byteOf 0xBF) (String (byteOf 0xBD) EmptyString))
  else if c <=? 0xFFFF then
    String (byteOf (N.lor 0xE0 (N.shiftr c 12)))
      (String (byteOf (N.lor 0x80 (N.land (N.shiftr c 6) 0x3F)))
         (String (byteOf (N.lor 0x80 (N.land c 0x3F))) EmptyString))
  else
    String (byteOf (N.lor 0xF0 (N.shiftr c 18)))
      (String (byteOf (N.lor 0x80 (N.land (N.shiftr c 12) 0x3F)))
         (String (byteOf (N.lor 0x80 (N.land (N.shiftr c 6) 0x3F)))
            (String (byteOf (N.lor 0x80 (N.land c 0x3F))) EmptyString))).

(** The digit table ["0123456789abcdef"] of package fmt. *)
Definition ldigit (d : N) : ascii :=
  if d <? 10 then ascii_of_N (48 + d) else ascii_of_N (87 + d).

(** fmt's integer formatting in base 16: digits are produced from the least
    significant one, in front of [acc]. *)
Fixpoint fmtHex (fuel : nat) (u : N) (acc : string) : string :=
  match fuel with
  | O => acc
  | S k =>
    if u <? 16 then String (ldigit u) acc
    else fmtHex k (N.shiftr u 4) (String (ldigit (N.land u 0xF)) acc)
  end.

Definition hex (u : N) : string := fmtHex (S (N.to_nat (N.log2 u))) u EmptyString.

(** Zero padding on the left up to [width] characters. *)
Fixpoint padZero (n : nat) (s : string) : string :=
  match n with
  | O => s
  | S k => padZero k (String "0"%char s)
  end.

(** [fmt.Sprintf("%02x", c)]. *)
Definition Sprintf_02x (c : rune) : string :=
  let h := hex c in padZero (2 - String.length h) h.

(** strings.TrimPrefix. *)
Definition TrimPrefix (s pre : string) : string :=
  if String.prefix pre s then drop (String.length pre) s else s.

(** [strings.Split(s, sep)[0]] for a one-byte separator: the bytes before
    the first separator, the whole string when there is none. *)
Fixpoint SplitFirst (s : string) (sep : ascii) : string :=
  match s with
  | EmptyString => EmptyString
  | String c t => if Ascii.eqb c sep then EmptyString else String c (SplitFirst t sep)
  end.

Fixpoint isASCII (s : string) : bool :=
  match s with
  | EmptyString => true
  | String b t => (byteVal b <? 0x80) && isASCII t
  end.

Fixpoint mapBytes (f : ascii -> ascii) (s : string) : string :=
  match s with
  | EmptyString => EmptyString
  | String b t => String (f b) (mapBytes f t)
  end.

Definition lowerByte (b : ascii) : ascii :=
  if between 65 90 (byteVal b) then ascii_of_N (byteVal b + 32) else b.

Definition upperByte (b : ascii) : ascii :=
  if between 97 122 (byteVal b) then ascii_of_N (byteVal b - 32) else b.

End Go.

(** ** The object path encoder *)

Module Sss.
Import Go.

(** The test of the loop body on the rune [c]:
    [0-9], [A-Z], [a-z] or ['_']. *)
Definition isPathRune (c : rune) : bool :=
  between 48 57 c || between 65 90 c || between 97 122 c || (c =? 95).

(** One iteration of the loop of [domainToObjectPath]: [r] is the string
    built so far, [c] the rune of this iteration. *)
Definition objectPathStep (r : string) (c : rune) : string :=
  if isPathRune c then r ++ runeToString c
  else r ++ "_" ++ Sprintf_02x c.

Definition domainToObjectPath (s : string) : string :=
  fold_left objectPathStep (rangeString s) EmptyString.

(** ** Configuration and errors *)

(** Config for the backend: the path of sssd.conf and the cache
    directory. *)
Record Config := mkConfig { Conf : string; CacheDir : string }.

(** The texts of the errors come from gotext.Get, which translates and
    formats them; a message is kept as its template together with its
    arguments. *)
Inductive message :=
| CantGetDomainConfiguration (c : Config)
| FailedToFindDefaultDomain
| CouldNotFindDomainSection (sssdDomain : string)
| ErrorLookingUpServer (domain : string).

(** Modelled from the spec: backends.ErrNoActiveServer is declared in a
    package that is not part of the sources at hand; the specification
    makes it an error kind of its own, distinct from transport failures,
    hence the constructor [ErrNoActiveServer]. The other constructors are
    Go [error] values as the backend makes them: the result of errors.New,
    an error made by a library (ini, dbus), and an error wrapped with a
    prefix by fmt.Errorf("%s: %w", ...). *)
Inductive error :=
| ErrNoActiveServer
| errorsNew (m : message)
| external (text : string)
| wrapped (m : message) (e : error).

(** decorate.OnError (github.com/ubuntu/decorate), run by [defer] on the
    named result [err]: a non-nil error is wrapped with the message, nil is
    left alone. *)
Definition OnError (m : message) (err : option error) : option error :=
  match err with
  | Some e => Some (wrapped m e)
  | None => None
  end.

(** errors.Is(err, backends.ErrNoActiveServer): follows the %w chain. *)
Fixpoint IsNoActiveServer (e : error) : bool :=
  match e with
  | ErrNoActiveServer => true
  | wrapped _ e' => IsNoActiveServer e'
  | _ => false
  end.

(** ** The configuration file and the bus, as the backend observes them *)

(** An ini.File loaded by ini.InsensitiveLoad is read by [New] through two
    calls only: [cfg.Section(sec).Key(key).String()] and
    [cfg.Section(sec).KeyStrings()]. A section that does not exist is
    created empty by Section, and so shows as a section without keys; a key
    that does not exist is created with the empty value by Key. What these
    calls create is empty and no later call of [New] observes it. *)
Record File := mkFile {
  keyString : string -> string -> string;
  keyStrings : string -> list string
}.

(** The first listed domain of a configuration: the value [New] gives to
    [sssdDomain]. *)
Definition firstDomain (cfg : File) : string :=
  SplitFirst (keyString cfg "sssd" "domains") ","%char.

(** dbus.Object: destination and object path (the connection is the oracle
    handed to the methods that call the bus). *)
Record BusObject := mkBusObject { dest : string; path : string }.

(** One method call on the bus. *)
Record BusCall := mkBusCall {
  callObject : BusObject;
  callMethod : string;
  callArgs : list string
}.

(** The remote side: what [Call(...).Store(&v)] gives for a call with a
    string result, the stored value or the text of the error. *)
Definition Bus := BusCall -> string + string.

(** A Go call either returns or panics. *)
Inductive outcome (A : Type) :=
| Returns (a : A)
| Panics.
Arguments Returns {A} a.
Arguments Panics {A}.

(** ** The backend *)

Record SSS := mkSSS {
  domain : string;
  domainDbus : option BusObject;
  serverFQDN : string;
  staticServerFQDN : string;
  hostKrb5CCName : string;
  defaultDomainSuffix : string;
  config : Config
}.

(** The zero values [Config{}] and [SSS{}]. *)
Definition zeroConfig : Config := mkConfig EmptyString EmptyString.

Definition SSS_zero : SSS :=
  mkSSS EmptyString None EmptyString EmptyString EmptyString EmptyString zeroConfig.

(** Package consts of the repository. *)
Record Consts := mkConsts {
  DefaultSSSConf : string;
  DefaultSSSCacheDir : string;
  SSSDDbusRegisteredName : string;
  SSSDDbusBaseObjectPath : string;
  SSSDDbusInterface : string
}.

(** The parts of Go's library taken as given: filepath.Join, and the
    Unicode case mapping that strings.ToUpper applies to a string that is
    not pure ASCII. *)
Record GoLib := mkGoLib {
  filepath_Join : string -> string -> string;
  unicodeToUpper : string -> string
}.

Section Backend.

Variable K : Consts.
Variable L : GoLib.

(** strings.ToUpper: ASCII strings take the byte-wise fast path. *)
Definition ToUpper (s : string) : string :=
  if isASCII s then mapBytes upperByte s else unicodeToUpper L s.

Definition isEmpty (s : string) : bool := (s =? EmptyString)%string.

(** The two defaults applied to [c] at the start of [New]. *)
Definition withDefaults (c : Config) : Config :=
  let c := if isEmpty (Conf c) then mkConfig (DefaultSSSConf K) (CacheDir c) else c in
  if isEmpty (CacheDir c) then mkConfig (Conf c) (DefaultSSSCacheDir K) else c.

(** [New]. [load] is ini.InsensitiveLoad on the file system at hand. The
    message of the deferred decorate.OnError is built when the [defer]
    statement runs, from [c] as passed in. *)
Definition New (load : string -> File + error) (c : Config) : SSS * option error :=
  let onError := OnError (CantGetDomainConfiguration c) in
  let c := withDefaults c in
  match load (Conf c) with
  | inr err => (SSS_zero, onError (Some err))
  | inl cfg =>
    let defaultDomainSuffix := keyString cfg "sssd" "default_domain_suffix" in
    let sssdDomain := SplitFirst (keyString cfg "sssd" "domains") ","%char in
    if isEmpty sssdDomain then
      (SSS_zero, onError (Some (errorsNew FailedToFindDefaultDomain)))
    else
      let domainSection := "domain/" ++ sssdDomain in
      if (List.length (keyStrings cfg domainSection) =? 0)%nat then
        (SSS_zero, onError (Some (errorsNew (CouldNotFindDomainSection sssdDomain))))
      else
        let domain := keyString cfg domainSection "ad_domain" in
        let domain := if isEmpty domain then sssdDomain else domain in
        let defaultDomainSuffix :=
          if isEmpty defaultDomainSuffix then domain else defaultDomainSuffix in
        let domainDbus :=
          mkBusObject (SSSDDbusRegisteredName K)
            (filepath_Join L (SSSDDbusBaseObjectPath K) (domainToObjectPath domain)) in
        let staticServerFQDN := keyString cfg ("domain/" ++ sssdDomain) "ad_server" in
        let staticServerFQDN :=
          if negb (isEmpty staticServerFQDN) then TrimPrefix staticServerFQDN "ldap://"
          else staticServerFQDN in
        let hostKrb5CCName := filepath_Join L (CacheDir c) ("ccache_" ++ ToUpper domain) in
        (mkSSS domain (Some domainDbus) staticServerFQDN staticServerFQDN
           hostKrb5CCName defaultDomainSuffix c,
         onError None)
  end.

Definition Domain (sss : SSS) : string := domain sss.

(** The call issued by [ServerFQDN] on the object [obj]. *)
Definition activeServerCall (obj : BusObject) : BusCall :=
  mkBusCall obj (SSSDDbusInterface K ++ ".ActiveServer") ["AD"%string].

(** [ServerFQDN]: the results [(serverFQDN, err)], or a panic when the
    method is called through a nil [domainDbus]; and the calls issued on
    the bus, in order. *)
Definition ServerFQDN (sss : SSS) (bus : Bus)
  : outcome (string * option error) * list BusCall :=
  let onError := OnError (ErrorLookingUpServer (domain sss)) in
  if negb (isEmpty (staticServerFQDN sss)) then
    (Returns (staticServerFQDN sss, onError None), [])
  else
    match domainDbus sss with
    | None => (Panics, [])
    | Some obj =>
      let call := activeServerCall obj in
      match bus call with
      | inr text => (Returns (EmptyString, onError (Some (external text))), [call])
      | inl serverFQDN =>
        if isEmpty serverFQDN then
          (Returns (EmptyString, onError (Some ErrNoActiveServer)), [call])
        else
          (Returns (TrimPrefix serverFQDN "ldap://", onError None), [call])
      end
    end.

Definition HostKrb5CCName (sss : SSS) : string * option error :=
  (hostKrb5CCName sss, None).

Definition DefaultDomainSuffix (sss : SSS) : string := defaultDomainSuffix sss.

End Backend.

(** Sample values of the constants and a plain stand-in for the library,
    to run the backend on concrete configurations: the join of two clean,
    non-empty elements, and no case mapping beyond ASCII. *)
Definition sampleConsts : Consts :=
  mkConsts "/etc/sssd/sssd.conf" "/var/lib/sss/db"
    "org.freedesktop.sssd.infopipe"
    "/org/freedesktop/sssd/infopipe/Domains"
    "org.freedesktop.sssd.infopipe.Domains.Domain".

Definition sampleLib : GoLib :=
  mkGoLib (fun a b => a ++ "/" ++ b) (fun s => s).

(** A configuration file given by its sections, for files whose section
    names hold no ['.'] and whose values hold no ['%'] (ini then neither
    looks a key up in a parent section nor expands a value). Names are as
    InsensitiveLoad stores them, in lower case. *)
Definition lookup {A : Type} (d : A) (k : string) (l : list (string * A)) : A :=
  match find (fun p => (fst p =? k)%string) l with
  | Some p => snd p
  | None => d
  end.

Definition fileOf (secs : list (string * list (string * string))) : File :=
  mkFile (fun sec key => lookup EmptyString key (lookup [] sec secs))
         (fun sec => map fst (lookup [] sec secs)).

(** The configuration [f] without the key [key] of section [sec]. *)
Definition withoutKey (sec key : string) (f : File) : File :=
  mkFile
    (fun s k => if (s =? sec)%string && (k =? key)%string then EmptyString
                else keyString f s k)
    (fun s => if (s =? sec)%string
              then filter (fun k => negb (k =? key)%string) (keyStrings f s)
              else keyStrings f s).

(** The configuration [f] with the value [v] for the key [key] of section
    [sec]; the keys shown by the sections are those of [f]. *)
Definition withValue (sec key v : string) (f : File) : File :=
  mkFile
    (fun s k => if (s =? sec)%string && (k =? key)%string then v
                else keyString f s k)
    (keyStrings f).

(** *** Sample configurations *)

(** [domains = corp,extra], a populated [domain/corp] without [ad_domain]
    and without [ad_server]. *)
Definition corpFile : File :=
  fileOf [("sssd", [("domains", "corp,extra")]);
          ("domain/corp", [("id_provider", "ad")])].

(** The same with a static server. *)
Definition corpStaticFile : File :=
  fileOf [("sssd", [("domains", "corp,extra")]);
          ("domain/corp", [("id_provider", "ad");
                           ("ad_server", "ldap://dc1.corp.example")])].

(** The same with the scheme alone as server. *)
Definition corpSchemeFile : File :=
  fileOf [("sssd", [("domains", "corp,extra")]);
          ("domain/corp", [("id_provider", "ad"); ("ad_server", "ldap://")])].

(** The scheme alone as server, and no other key in the section. *)
Definition loneSchemeFile : File :=
  fileOf [("sssd", [("domains", "corp,extra")]);
          ("domain/corp", [("ad_server", "ldap://")])].

(** A first domain without its section. *)
Definition orphanFile : File :=
  fileOf [("sssd", [("domains", "corp")])].

(** A file system on which every path holds the configuration [f]. *)
Definition always (f : File) : string -> File + error := fun _ => inl f.

(** The backend [New] returns for [f] with the sample constants and the
    zero configuration. *)
Definition backendOf (f : File) : SSS :=
  fst (New sampleConsts sampleLib (always f) zeroConfig).

(** Three states of the remote service: no active server, a transport
    failure, and an active server. *)
Definition busNoServer : Bus := fun _ => inl EmptyString.
Definition busDown : Bus := fun _ => inr "org.freedesktop.DBus.Error.ServiceUnknown".
Definition busActive : Bus := fun _ => inl "ldap://dc2.corp.example".

(** ** The encoding and its inverse, in the words of the specification *)

Definition isPathByte (b : ascii) : bool := isPathRune (byteVal b).

(** ['_'] followed by the two-digit lowercase hexadecimal value of [b]. *)
Definition escapeByte (b : ascii) : string :=
  String "_"%char
    (String (ldigit (N.shiftr (byteVal b) 4))
       (String (ldigit (N.land (byteVal b) 0xF)) EmptyString)).

Fixpoint encodeBytes (s : string) : string :=
  match s with
  | EmptyString => EmptyString
  | String b t =>
    (if isPathByte b then String b EmptyString else escapeByte b) ++ encodeBytes t
  end.

Fixpoint allPathBytes (s : string) : bool :=
  match s with
  | EmptyString => true
  | String b t => isPathByte b && allPathBytes t
  end.

(** The value of a lowercase hexadecimal digit. *)
Definition hexVal (c : ascii) : option N :=
  let x := byteVal c in
  if between 48 57 x then Some (x - 48)
  else if between 97 102 x then Some (x - 87)
  else None.

(** Modelled from the spec: the decoder is not part of the sources; the
    specification describes it as splitting the encoded form on [_XX] hex
    runs. Reading left to right, ['_'] followed by two hexadecimal digits
    (lowercase, as the encoder writes them) stands for the byte of that
    value; any other byte stands for itself. *)
Fixpoint decodeObjectPath (s : string) : string :=
  match s with
  | EmptyString => EmptyString
  | String c t =>
    if Ascii.eqb c "_" then
      match t with
      | String a (String b t') =>
        match hexVal a, hexVal b with
        | Some x, Some y => String (byteOf (16 * x + y)) (decodeObjectPath t')
        | _, _ => String c (decodeObjectPath t)
        end
      | _ => String c (decodeObjectPath t)
      end
    else String c (decodeObjectPath t)
  end.

(** The two bytes of U+00E9 in UTF-8, as a Go string. *)
Definition e_acute : string :=
  String (ascii_of_N 0xC3) (String (ascii_of_N 0xA9) EmptyString).

Definition startsWithTwoHex (s : string) : bool :=
  match s with
  | String a (String b _) =>
    match hexVal a, hexVal b with
    | Some _, Some _ => true
    | _, _ => false
    end
  | _ => false
  end.

(** No ['_'] of [s] is followed by two lowercase hexadecimal digits. *)
Fixpoint noEscapeLook (s : string) : bool :=
  match s with
  | EmptyString => true
  | String c t => negb (Ascii.eqb c "_" && startsWithTwoHex t) && noEscapeLook t
  end.

(** ** The remaining methods of the backend *)

(** The error of [IsOnline], made by errors.New from the text of the bus
    error (formatted with %v, so the cause is not wrapped). *)
Inductive onlineError :=
| FailedToRetrieveOfflineState (cause : string).

(** The remote side for a call with a boolean result. *)
Definition BoolBus := BusCall -> bool + string.

(** The call issued by [IsOnline] on the object [obj]: no argument. *)
Definition isOnlineCall (K : Consts) (obj : BusObject) : BusCall :=
  mkBusCall obj (SSSDDbusInterface K ++ ".IsOnline") [].

(** [IsOnline]: the results [(online, err)], or a panic when the method is
    called through a nil [domainDbus]; and the calls issued on the bus. *)
Definition IsOnline (K : Consts) (sss : SSS) (bus : BoolBus)
  : outcome (bool * option onlineError) * list BusCall :=
  match domainDbus sss with
  | None => (Panics, [])
  | Some obj =>
    let call := isOnlineCall K obj in
    match bus call with
    | inr text => (Returns (false, Some (FailedToRetrieveOfflineState text)), [call])
    | inl online => (Returns (online, None), [call])
    end
  end.

Definition newline : string := String (ascii_of_N 10) EmptyString.

(** The method [Config] of the backend (the name [Config] is the record's):
    the three lines of its format, the two [%s] filled with the paths. *)
Definition SSS_Config (sss : SSS) : string :=
  "Current backend is SSSD" ++ newline ++
  "Configuration: " ++ Conf (config sss) ++ newline ++
  "Cache: " ++ CacheDir (config sss).

(** The byte [c] occurs in [s]. *)
Fixpoint hasByte (c : ascii) (s : string) : bool :=
  match s with
  | EmptyString => false
  | String b t => Ascii.eqb b c || hasByte c t
  end.

End Sss.

(** ** Azure images ([az], the image helpers of the end-to-end tests) *)

Module Az.
Import Go Sss.

(** [strings.Contains(s, substr)]. *)
Fixpoint Contains (s substr : string) : bool :=
  String.prefix substr s ||
  match s with
  | EmptyString => false
  | String _ t => Contains t substr
  end.

(** [strings.Split(s, sep)] for a one-byte separator: the fields between
    the separators, never an empty slice. *)
Fixpoint Split (s : string) (sep : ascii) : list string :=
  match s with
  | EmptyString => [EmptyString]
  | String c t =>
    if Ascii.eqb c sep then EmptyString :: Split t sep
    else
      match Split t sep with
      | h :: r => String c h :: r
      | [] => [String c EmptyString]
      end
  end.

(** [l[i]]: an index out of range panics. *)
Definition index {A : Type} (l : list A) (i : nat) : outcome A :=
  match nth_error l i with
  | Some x => Returns x
  | None => Panics
  end.

Definition bind {A B : Type} (m : outcome A) (f : A -> outcome B) : outcome B :=
  match m with
  | Returns a => f a
  | Panics => Panics
  end.

Record Image := mkImage {
  Architecture : string;
  Offer : string;
  Publisher : string;
  SKU : string;
  URN : string;
  Version : string
}.

(** The zero value [Image{}]. *)
Definition Image_zero : Image :=
  mkImage EmptyString EmptyString EmptyString EmptyString EmptyString EmptyString.

Definition Images := list Image.

(** The two errors of the selectors, made by fmt.Errorf. *)
Inductive selectError :=
| NoDailyImageFound
| NoStableImageFound.

Definition isDailyImage (i : Image) : bool := Contains (Offer i) "daily".

Definition isGen2Image (i : Image) : bool :=
  if Contains (Offer i) "0001-com-ubuntu" then Contains (SKU i) "gen2"
  else negb (Contains (SKU i) "gen1").

(** [cmp.Compare(j.Version, i.Version)], the comparison handed to
    slices.SortFunc: strings compare byte by byte. *)
Definition byVersionDesc (i j : Image) : comparison :=
  String.compare (Version j) (Version i).

(** [a] may stand before [b] in a slice sorted by [byVersionDesc]. *)
Definition versionGe (a b : Image) : Prop :=
  String.leb (Version b) (Version a) = true.

Section Selectors.

(** slices.SortFunc with the comparison [byVersionDesc], as a function from
    the slice before to the slice after. The sort of the library is not
    stable, so all that is known of it is taken as given: the result is a
    rearrangement of the input, in order (see [SortFunc_spec]). *)
Variable SortFunc : list Image -> list Image.

Definition SortFunc_spec : Prop :=
  forall l : list Image,
    Permutation l (SortFunc l) /\ StronglySorted versionGe (SortFunc l).

Definition LatestDaily (images : Images) : Image * option selectError :=
  let dailyImages :=
    filter (fun image =>
              (Architecture image =? "x64")%string && isGen2Image image
              && isDailyImage image) images in
  if (List.length dailyImages =? 0)%nat then (Image_zero, Some NoDailyImageFound)
  else (hd Image_zero (SortFunc dailyImages), None).

Definition LatestStable (images : Images) : Image * option selectError :=
  let stableImages :=
    filter (fun image =>
              (Architecture image =? "x64")%string && isGen2Image image
              && negb (isDailyImage image)) images in
  if (List.length stableImages =? 0)%nat then (Image_zero, Some NoStableImageFound)
  else (hd Image_zero (SortFunc stableImages), None).

End Selectors.

(** A sort by insertion with the same comparison, to run the selectors. *)
Fixpoint insertByVersion (x : Image) (l : list Image) : list Image :=
  match l with
  | [] => [x]
  | y :: t =>
    match byVersionDesc x y with
    | Gt => y :: insertByVersion x t
    | _ => x :: l
    end
  end.

Definition insertionSort (l : list Image) : list Image :=
  fold_right insertByVersion [] l.

(** The image [image] is kept by the loop of [LatestDaily]. *)
Definition dailyEligible (image : Image) : bool :=
  (Architecture image =? "x64")%string && isGen2Image image && isDailyImage image.

(** The image [image] is kept by the loop of [LatestStable]. *)
Definition stableEligible (image : Image) : bool :=
  (Architecture image =? "x64")%string && isGen2Image image
  && negb (isDailyImage image).

(** The last field of [s] for the separator [sep]. *)
Definition lastField (sep : ascii) (s : string) : string :=
  last (Split s sep) EmptyString.

(** The base image of the comment of [ImageBuildNumber]. *)
Definition manticURN : string :=
  "Canonical:0001-com-ubuntu-minimal-mantic:minimal-23_10-gen2:23.10.202310110".

(** Sample images: two daily ones, a stable one, one of another
    architecture, one of the first generation in the old scheme. *)
Definition sampleImages : Images :=
  [ mkImage "x64" "ubuntu-24_04-lts-daily" "Canonical" "minimal" "u1" "24.04.202404010";
    mkImage "x64" "ubuntu-24_04-lts-daily" "Canonical" "minimal" "u2" "24.04.202405010";
    mkImage "x64" "ubuntu-24_04-lts" "Canonical" "minimal" "u3" "24.04.202404230";
    mkImage "arm64" "ubuntu-24_04-lts-daily" "Canonical" "minimal" "u4" "24.04.202406010";
    mkImage "x64" "0001-com-ubuntu-minimal-jammy" "Canonical" "minimal-22_04-lts" "u5"
      "22.04.202404160" ].

(** *** Listing images *)

(** The number of occurrences of the byte [c] in [s]. *)
Fixpoint countByte (c : ascii) (s : string) : nat :=
  match s with
  | EmptyString => 0
  | String b t => (if Ascii.eqb b c then 1 else 0) + countByte c t
  end.

(** The arguments common to the commands of [ImageList]. *)
Definition imageListArgs : list string :=
  ["vm"; "image"; "list"; "--publisher"; "Canonical"; "--all"].

(** A stand-in for natural.Less on samples: by length. *)
Definition shorter (a b : string) : bool :=
  (String.length a <? String.length b)%nat.

(** The value of a decimal digit. *)
Definition digitVal (c : ascii) : option Z :=
  if between 48 57 (byteVal c) then Some (Z.of_N (byteVal c) - 48)%Z else None.

Fixpoint parseDigits (s : string) (n : Z) : option Z :=
  match s with
  | EmptyString => Some n
  | String c t =>
    match digitVal c with
    | Some d => parseDigits t (n * 10 + d)%Z
    | None => None
    end
  end.

(** strconv.Atoi with a 64-bit [int]: an optional sign and at least one
    decimal digit, nothing else, and a value in range; [None] is the
    error. *)
Definition Atoi (s : string) : option Z :=
  let (neg, body) :=
    match s with
    | String c t =>
      if Ascii.eqb c "-" then (true, t)
      else if Ascii.eqb c "+" then (false, t)
      else (false, s)
    | EmptyString => (false, s)
    end in
  match body with
  | EmptyString => None
  | String _ _ =>
    match parseDigits body 0%Z with
    | None => None
    | Some n =>
      let v := if neg then (- n)%Z else n in
      if ((- 2 ^ 63 <=? v) && (v <=? 2 ^ 63 - 1))%Z then Some v else None
    end
  end.

(** The errors of [ImageList] and [LatestImageVersion]: the two of the
    version check, the error of the command handed on as it is, and the
    error of the decoder (wrapped in [ImageList], as it is in
    [LatestImageVersion]). *)
Inductive listError :=
| InvalidVersionFormat (version : string)
| FailedToParseVersionYear
| CommandFailed (text : string)
| FailedToGetImageList (cause : string)
| DecodeFailed (cause : string).

Definition oldImageVersionCodenames : list string := ["focal"; "jammy"; "mantic"].

Definition NullImageVersion : string := "0.0.0".

Section Commands.

(** [RunCommand], of the same package but not among the sources: the
    output of the az command run with the arguments given, or the text of
    its error. *)
Variable RunCommand : list string -> string + string.

(** json.Unmarshal into a slice of images, and into a slice of versions
    (the one field of [imageVersion]). *)
Variable decodeImages : string -> Images + string.
Variable decodeVersions : string -> list string + string.

(** natural.Less (github.com/maruel/natural). *)
Variable Less : string -> string -> bool.

(** [ImageList]: the results [(images, err)] and the commands run. *)
Definition ImageList (codename version : string)
  : (Images * option listError) * list (list string) :=
  match Split version "."%char with
  | [year; minor] =>
    match Atoi year with
    | None => (([], Some FailedToParseVersionYear), [])
    | Some y =>
      let isLTS := (Z.rem y 2 =? 0)%Z && (minor =? "04")%string in
      let version := "ubuntu-" ++ String.concat "_" [year; minor] in
      let version := if isLTS then version ++ "-lts" else version in
      let filterArgs := ["--offer"; version; "--sku"; "minimal"] in
      let filterArgs :=
        if existsb (String.eqb codename) oldImageVersionCodenames
        then ["--offer"; "0001-com-ubuntu-minimal-" ++ codename]
        else filterArgs in
      let args := (["vm"; "image"; "list"; "--publisher"; "Canonical"; "--all"]
                   ++ filterArgs)%list in
      match RunCommand args with
      | inr text => (([], Some (CommandFailed text)), [args])
      | inl out =>
        match decodeImages out with
        | inr cause => (([], Some (FailedToGetImageList cause)), [args])
        | inl images => ((images, None), [args])
        end
      end
    end
  | _ => (([], Some (InvalidVersionFormat version)), [])
  end.

(** The loop of [LatestImageVersion]. *)
Definition latestStep (latestVersion v : string) : string :=
  if Less latestVersion v then v else latestVersion.

Definition LatestImageVersion (imageDefinition : string)
  : (string * option listError) * list (list string) :=
  let latestVersion := NullImageVersion in
  let args := ["sig"; "image-version"; "list";
               "--resource-group"; "AD";
               "--gallery-name"; "AD";
               "--gallery-image-definition"; imageDefinition] in
  match RunCommand args with
  | inr text => ((latestVersion, Some (CommandFailed text)), [args])
  | inl out =>
    match decodeVersions out with
    | inr cause => ((latestVersion, Some (DecodeFailed cause)), [args])
    | inl versions =>
      if (List.length versions =? 0)%nat then ((latestVersion, None), [args])
      else ((fold_left latestStep versions latestVersion, None), [args])
    end
  end.

End Commands.

(** [ImageDefinitionName]. *)
Definition ImageDefinitionName (codename : string) : string :=
  "ubuntu-desktop-" ++ codename.

(** [ImageBuildNumber]: the last field of the last field. *)
Definition ImageBuildNumber (baseVMImage : string) : outcome string :=
  let urnParts := Split baseVMImage ":"%char in
  bind (index urnParts (List.length urnParts - 1)) (fun version =>
  let versionParts := Split version "."%char in
  bind (index versionParts (List.length versionParts - 1)) (fun buildNumber =>
  Returns buildNumber)).

End Az.

(** * Properties *)

Import Go Sss.

(** ** Strings *)

Lemma append_nil_r (s : string) : s ++ EmptyString = s.
Proof. induction s as [|b t IH]; simpl; [reflexivity | now rewrite IH]. Qed.

Lemma append_assoc (a b c : string) : (a ++ b) ++ c = a ++ (b ++ c).
Proof. induction a as [|x a IH]; simpl; [reflexivity | now rewrite IH]. Qed.

Lemma drop_length (n : nat) (s : string) :
  String.length (drop n s) = (String.length s - n)%nat.
Proof.
  revert s; induction n as [|n IH]; intros [|b t]; simpl; auto.
Qed.

(** A case analysis on the 256 values of a byte, settled by evaluation. *)
Ltac by_byte b :=
  destruct b as [[|] [|] [|] [|] [|] [|] [|] [|]]; vm_compute;
  try reflexivity; try discriminate; auto.

(** ** Ranging over a string *)

Lemma DecodeRuneInString_size (b : ascii) (t : string) :
  (1 <= snd (DecodeRuneInString (String b t)))%nat.
Proof.
  unfold DecodeRuneInString.
  repeat match goal with
         | |- context [match ?x with _ => _ end] => destruct x
         end; simpl; lia.
Qed.

(** Fuel beyond the length of the string changes nothing: the loop has
    ended by then. *)
Lemma rangeFrom_fuel (f1 : nat) : forall (f2 : nat) (s : string),
  (String.length s <= f1)%nat -> (String.length s <= f2)%nat ->
  rangeFrom f1 s = rangeFrom f2 s.
Proof.
  induction f1 as [|f1 IH]; intros f2 s H1 H2.
  - destruct s; [|simpl in H1; lia]. destruct f2; reflexivity.
  - destruct s as [|b t]; [destruct f2; reflexivity|].
    destruct f2 as [|f2]; [simpl in H2; lia|].
    cbn [rangeFrom].
    pose proof (DecodeRuneInString_size b t) as Hs.
    destruct (DecodeRuneInString (String b t)) as [c size]. simpl in Hs.
    cbn [String.length] in H1, H2.
    f_equal. apply IH; rewrite drop_length; cbn [String.length]; lia.
Qed.

Lemma rangeString_fuel (fuel : nat) (s : string) :
  (String.length s <= fuel)%nat -> rangeFrom fuel s = rangeString s.
Proof. intros H. apply rangeFrom_fuel; [exact H | apply Nat.le_refl]. Qed.

(** One iteration on a string that starts with an ASCII byte. *)
Lemma rangeString_ascii_cons (b : ascii) (t : string) :
  (byteVal b <? 0x80) = true ->
  rangeString (String b t) = byteVal b :: rangeString t.
Proof.
  intros Hb. unfold rangeString. cbn [String.length rangeFrom].
  unfold DecodeRuneInString. rewrite Hb. reflexivity.
Qed.

(** ** The loop of [domainToObjectPath] *)

Lemma objectPathStep_append (r : string) (c : rune) :
  objectPathStep r c = r ++ objectPathStep EmptyString c.
Proof. unfold objectPathStep. destruct (isPathRune c); reflexivity. Qed.

Lemma fold_objectPathStep (l : list rune) : forall r : string,
  fold_left objectPathStep l r = r ++ fold_left objectPathStep l EmptyString.
Proof.
  induction l as [|c l IH]; intros r; simpl.
  - symmetry; apply append_nil_r.
  - rewrite IH, (IH (objectPathStep EmptyString c)), objectPathStep_append.
    apply append_assoc.
Qed.

(** On the code point of a single byte, the loop body writes what the
    byte-wise encoding writes for that byte. *)
Lemma objectPathStep_byte (b : ascii) :
  objectPathStep EmptyString (byteVal b) =
  if isPathByte b then String b EmptyString else escapeByte b.
Proof. by_byte b. Qed.

Lemma isPathByte_ascii (b : ascii) :
  isPathByte b = true -> (byteVal b <? 0x80) = true.
Proof. by_byte b. Qed.

(** On ASCII input the code and the byte-wise encoding agree. *)
Lemma domainToObjectPath_ascii (s : string) :
  isASCII s = true -> domainToObjectPath s = encodeBytes s.
Proof.
  unfold domainToObjectPath.
  induction s as [|b t IH]; intros H; [reflexivity|].
  simpl in H. apply andb_prop in H as [Hb Ht].
  rewrite (rangeString_ascii_cons b t Hb). cbn [fold_left].
  rewrite fold_objectPathStep, objectPathStep_byte, (IH Ht). reflexivity.
Qed.

Lemma allPathBytes_isASCII (s : string) :
  allPathBytes s = true -> isASCII s = true.
Proof.
  induction s as [|b t IH]; simpl; intros H; [reflexivity|].
  apply andb_prop in H as [Hb Ht].
  now rewrite (isPathByte_ascii b Hb), (IH Ht).
Qed.

Lemma encodeBytes_id (s : string) :
  allPathBytes s = true -> encodeBytes s = s.
Proof.
  induction s as [|b t IH]; simpl; intros H; [reflexivity|].
  apply andb_prop in H as [Hb Ht].
  now rewrite Hb, (IH Ht).
Qed.

(** ** Decoding *)

Lemma escapeByte_decodes (b : ascii) :
  hexVal (ldigit (N.shiftr (byteVal b) 4)) = Some (N.shiftr (byteVal b) 4) /\
  hexVal (ldigit (N.land (byteVal b) 0xF)) = Some (N.land (byteVal b) 0xF) /\
  byteOf (16 * N.shiftr (byteVal b) 4 + N.land (byteVal b) 0xF) = b.
Proof. by_byte b. Qed.

Lemma decodeObjectPath_escape (b : ascii) (u : string) :
  decodeObjectPath (escapeByte b ++ u) = String b (decodeObjectPath u).
Proof.
  destruct (escapeByte_decodes b) as (H1 & H2 & H3).
  unfold escapeByte. cbn [append decodeObjectPath].
  rewrite H1, H2, H3. reflexivity.
Qed.

Lemma decodeObjectPath_plain (c : ascii) (u : string) :
  Ascii.eqb c "_" && startsWithTwoHex u = false ->
  decodeObjectPath (String c u) = String c (decodeObjectPath u).
Proof.
  intros H. cbn [decodeObjectPath].
  destruct (Ascii.eqb c "_"); [|reflexivity].
  simpl in H. destruct u as [|a [|b u]]; try reflexivity.
  simpl in H. destruct (hexVal a), (hexVal b); try reflexivity; discriminate.
Qed.

Lemma hexVal_path_byte (a : ascii) :
  isPathByte a = false -> hexVal a = None.
Proof. by_byte a. Qed.

(** The encoding creates no new escape-like run after a literal ['_']: two
    hexadecimal digits at the head of the encoded form were already at the
    head of the input. *)
Lemma startsWithTwoHex_encodeBytes (t : string) :
  startsWithTwoHex t = false -> startsWithTwoHex (encodeBytes t) = false.
Proof.
  destruct t as [|a t]; [reflexivity|]. cbn [encodeBytes].
  destruct (isPathByte a) eqn:Ha; [|reflexivity].
  destruct t as [|b t]; [reflexivity|]. cbn [encodeBytes].
  destruct (isPathByte b) eqn:Hb; [exact (fun H => H)|].
  intros _. cbn. destruct (hexVal a); reflexivity.
Qed.

(** Decoding inverts the byte-wise encoding wherever the input holds no
    ['_'] that reads as the start of an escape. *)
Lemma decode_encodeBytes (s : string) :
  noEscapeLook s = true -> decodeObjectPath (encodeBytes s) = s.
Proof.
  induction s as [|c t IH]; [reflexivity|].
  cbn [noEscapeLook encodeBytes]. intros H.
  apply andb_prop in H as [Hc Ht]. apply negb_true_iff in Hc.
  destruct (isPathByte c) eqn:Hp.
  - cbn [append]. rewrite decodeObjectPath_plain, (IH Ht); [reflexivity|].
    destruct (Ascii.eqb c "_"); [|reflexivity].
    simpl in Hc |- *. now apply startsWithTwoHex_encodeBytes.
  - now rewrite decodeObjectPath_escape, (IH Ht).
Qed.

(** ** The claims on the encoder *)

(** C1 (the code departs from the claim on input that is not ASCII): on the
    two-byte character U+00E9 the loop of [domainToObjectPath] sees one
    rune and writes the hexadecimal form of its code point, ["_e9"], where
    the byte-wise encoding of the claim writes one escape per raw byte,
    ["_c3_a9"]. *)
Theorem domainToObjectPath_multibyte :
  domainToObjectPath e_acute = "_e9" /\ encodeBytes e_acute = "_c3_a9".
Proof. split; reflexivity. Qed.

(** C8: on a string whose bytes all lie in [0-9A-Za-z_] the encoding is
    the identity. *)
Theorem domainToObjectPath_identity (s : string) :
  allPathBytes s = true -> domainToObjectPath s = s.
Proof.
  intros H.
  rewrite (domainToObjectPath_ascii s (allPathBytes_isASCII s H)).
  now apply encodeBytes_id.
Qed.

Lemma domainToObjectPath_identity_witness :
  domainToObjectPath "Corp_01" = "Corp_01".
Proof. apply (domainToObjectPath_identity "Corp_01"). reflexivity. Defined.

(** C3, as stated, fails: ["_2e."] holds a byte outside the set (the dot),
    its encoding is ["_2e_2e"], and that decodes to two dots. *)
Lemma roundtrip_counterexample :
  allPathBytes "_2e." = false /\
  domainToObjectPath "_2e." = "_2e_2e" /\
  decodeObjectPath (domainToObjectPath "_2e.") = ".." /\
  decodeObjectPath (domainToObjectPath "_2e.") <> "_2e.".
Proof. repeat split; try reflexivity. discriminate. Qed.

(** C3, amended: for an ASCII string in which no ['_'] is followed by two
    lowercase hexadecimal digits, decoding the encoded form gives the
    string back. *)
Theorem roundtrip_ascii (s : string) :
  isASCII s = true -> noEscapeLook s = true ->
  decodeObjectPath (domainToObjectPath s) = s.
Proof.
  intros Ha Hn. rewrite (domainToObjectPath_ascii s Ha).
  now apply decode_encodeBytes.
Qed.

Lemma roundtrip_ascii_witness :
  decodeObjectPath (domainToObjectPath "my_corp.example-1.com") =
  "my_corp.example-1.com".
Proof. apply (roundtrip_ascii "my_corp.example-1.com"); reflexivity. Defined.

(** ** The constructor *)

Section BackendFacts.

Variable K : Consts.
Variable L : GoLib.

Lemma isEmpty_true (s : string) : isEmpty s = true <-> s = EmptyString.
Proof. apply String.eqb_eq. Qed.

Lemma isEmpty_false (s : string) : isEmpty s = false <-> s <> EmptyString.
Proof. apply String.eqb_neq. Qed.

(** What a successful [New] has read and stored. *)
Lemma New_success (load : string -> File + error) (c : Config) (s : SSS) :
  New K L load c = (s, None) ->
  exists cfg : File,
    load (Conf (withDefaults K c)) = inl cfg /\
    firstDomain cfg <> EmptyString /\
    keyStrings cfg ("domain/" ++ firstDomain cfg) <> [] /\
    let sec := "domain/" ++ firstDomain cfg in
    let dom := if isEmpty (keyString cfg sec "ad_domain") then firstDomain cfg
               else keyString cfg sec "ad_domain" in
    let srv := if negb (isEmpty (keyString cfg sec "ad_server"))
               then TrimPrefix (keyString cfg sec "ad_server") "ldap://"
               else keyString cfg sec "ad_server" in
    s = mkSSS dom
          (Some (mkBusObject (SSSDDbusRegisteredName K)
                   (filepath_Join L (SSSDDbusBaseObjectPath K) (domainToObjectPath dom))))
          srv srv
          (filepath_Join L (CacheDir (withDefaults K c)) ("ccache_" ++ ToUpper L dom))
          (if isEmpty (keyString cfg "sssd" "default_domain_suffix") then dom
           else keyString cfg "sssd" "default_domain_suffix")
          (withDefaults K c).
Proof.
  unfold New. destruct (load (Conf (withDefaults K c))) as [cfg|err]; [|discriminate].
  fold (firstDomain cfg).
  destruct (isEmpty (firstDomain cfg)) eqn:Hd; [discriminate|].
  destruct (keyStrings cfg ("domain/" ++ firstDomain cfg)) as [|k ks] eqn:Hk;
    [discriminate|].
  cbn [List.length Nat.eqb OnError]. intros H. injection H as <-.
  exists cfg. repeat split.
  - now apply isEmpty_false.
  - rewrite Hk. discriminate.
Qed.

(** Every failure of [New] comes with the zero backend. *)
Lemma New_failure (load : string -> File + error) (c : Config) (s : SSS) (e : error) :
  New K L load c = (s, Some e) -> s = SSS_zero.
Proof.
  unfold New. destruct (load (Conf (withDefaults K c))) as [cfg|err].
  - fold (firstDomain cfg).
    destruct (isEmpty (firstDomain cfg)); [now intros [= <- _]|].
    destruct (List.length _ =? 0)%nat; [now intros [= <- _]|].
    discriminate.
  - now intros [= <- _].
Qed.

(** C4: once the file is loaded, an empty [domains] list, or a first
    domain whose [domain/<name>] section shows no key (absent or empty),
    makes [New] fail with the matching configuration error wrapped by the
    deferred decoration; and whatever the failure, the backend returned is
    the zero value. *)
Theorem New_configuration_errors (load : string -> File + error) (c : Config) (cfg : File) :
  load (Conf (withDefaults K c)) = inl cfg ->
  (keyString cfg "sssd" "domains" = EmptyString ->
   New K L load c =
   (SSS_zero,
    Some (wrapped (CantGetDomainConfiguration c) (errorsNew FailedToFindDefaultDomain)))) /\
  (firstDomain cfg <> EmptyString ->
   keyStrings cfg ("domain/" ++ firstDomain cfg) = [] ->
   New K L load c =
   (SSS_zero,
    Some (wrapped (CantGetDomainConfiguration c)
            (errorsNew (CouldNotFindDomainSection (firstDomain cfg)))))) /\
  (forall (load' : string -> File + error) (c' : Config) (s : SSS) (e : error),
      New K L load' c' = (s, Some e) -> s = SSS_zero).
Proof.
  intros Hl. repeat split.
  - intros H. unfold New. rewrite Hl, H. reflexivity.
  - intros Hd Hk. unfold New. rewrite Hl. fold (firstDomain cfg).
    apply isEmpty_false in Hd. rewrite Hd, Hk. reflexivity.
  - intros load' c' s e. apply New_failure.
Qed.

(** C5: after a successful [New] the domain is not empty, and neither is
    the default domain suffix, which is the configured
    [default_domain_suffix] when there is one and the resolved domain
    otherwise. *)
Theorem New_nonempty_fields (load : string -> File + error) (c : Config) (s : SSS) :
  New K L load c = (s, None) ->
  domain s <> EmptyString /\
  defaultDomainSuffix s <> EmptyString /\
  exists cfg : File,
    load (Conf (withDefaults K c)) = inl cfg /\
    (keyString cfg "sssd" "default_domain_suffix" <> EmptyString ->
     defaultDomainSuffix s = keyString cfg "sssd" "default_domain_suffix") /\
    (keyString cfg "sssd" "default_domain_suffix" = EmptyString ->
     defaultDomainSuffix s = domain s).
Proof.
  intros H. destruct (New_success load c s H) as (cfg & Hl & Hd & _ & ->).
  cbn [domain defaultDomainSuffix].
  set (sec := "domain/" ++ firstDomain cfg).
  assert (Hdom : (if isEmpty (keyString cfg sec "ad_domain") then firstDomain cfg
                  else keyString cfg sec "ad_domain") <> EmptyString).
  { destruct (isEmpty (keyString cfg sec "ad_domain")) eqn:E; [exact Hd|].
    now apply isEmpty_false. }
  split; [exact Hdom|].
  destruct (isEmpty (keyString cfg "sssd" "default_domain_suffix")) eqn:E.
  - split; [exact Hdom|]. exists cfg. apply isEmpty_true in E.
    split; [exact Hl|]. split; [intros Hne; contradiction | reflexivity].
  - apply isEmpty_false in E. split; [exact E|]. exists cfg.
    split; [exact Hl|]. split; [reflexivity | intros He; contradiction].
Qed.

(** C6: with [domains = corp,extra] and a section [domain/corp] that has
    keys but gives no [ad_domain] (the lookup yields the empty value),
    [New] succeeds with the domain ["corp"], and with the default domain
    suffix ["corp"] when [default_domain_suffix] is unset. *)
Theorem New_first_domain (load : string -> File + error) (c : Config) (cfg : File) :
  load (Conf (withDefaults K c)) = inl cfg ->
  keyString cfg "sssd" "domains" = "corp,extra" ->
  keyStrings cfg "domain/corp" <> [] ->
  keyString cfg "domain/corp" "ad_domain" = EmptyString ->
  exists s : SSS,
    New K L load c = (s, None) /\
    domain s = "corp" /\
    (keyString cfg "sssd" "default_domain_suffix" = EmptyString ->
     defaultDomainSuffix s = "corp").
Proof.
  intros Hl Hd Hk Ha. unfold New. rewrite Hl, Hd.
  cbn [SplitFirst Ascii.eqb Bool.eqb isEmpty String.eqb append].
  destruct (keyStrings cfg "domain/corp") as [|k ks]; [contradiction|].
  cbn [List.length Nat.eqb OnError]. rewrite Ha.
  eexists. split; [reflexivity|]. cbn [domain defaultDomainSuffix].
  split; [reflexivity|]. intros ->. reflexivity.
Qed.

(** C7: after a successful [New], [HostKrb5CCName] returns the join of the
    cache directory (the default one when none was given) with ["ccache_"]
    followed by the upper-cased domain; and on any backend its error result
    is nil. *)
Theorem HostKrb5CCName_path (load : string -> File + error) (c : Config) (s : SSS) :
  New K L load c = (s, None) ->
  HostKrb5CCName s =
  (filepath_Join L (CacheDir (withDefaults K c)) ("ccache_" ++ ToUpper L (domain s)), None) /\
  (forall s' : SSS, snd (HostKrb5CCName s') = None).
Proof.
  intros H. destruct (New_success load c s H) as (cfg & _ & _ & _ & ->).
  split; [reflexivity | intros s'; reflexivity].
Qed.

(** C2: on a backend built by [New], a non-empty [staticServerFQDN] is
    returned with no call on the bus. Otherwise exactly one call is
    issued, ActiveServer on the backend's object: an empty answer fails
    with an error that is ErrNoActiveServer under its decoration, a
    transport failure fails with an error that is not, and a non-empty
    answer is returned without its ["ldap://"] prefix. *)
Theorem ServerFQDN_spec (load : string -> File + error) (c : Config) (s : SSS) (bus : Bus) :
  New K L load c = (s, None) ->
  (staticServerFQDN s <> EmptyString ->
   ServerFQDN K s bus = (Returns (staticServerFQDN s, None), [])) /\
  (staticServerFQDN s = EmptyString ->
   exists obj : BusObject,
     domainDbus s = Some obj /\
     (bus (activeServerCall K obj) = inl EmptyString ->
      exists e : error,
        ServerFQDN K s bus = (Returns (EmptyString, Some e), [activeServerCall K obj]) /\
        IsNoActiveServer e = true) /\
     (forall text : string,
        bus (activeServerCall K obj) = inr text ->
        exists e : error,
          ServerFQDN K s bus = (Returns (EmptyString, Some e), [activeServerCall K obj]) /\
          IsNoActiveServer e = false) /\
     (forall r : string,
        bus (activeServerCall K obj) = inl r -> r <> EmptyString ->
        ServerFQDN K s bus =
        (Returns (TrimPrefix r "ldap://", None), [activeServerCall K obj]))).
Proof.
  intros H. destruct (New_success load c s H) as (cfg & _ & _ & _ & ->).
  unfold ServerFQDN. cbn [staticServerFQDN domain domainDbus].
  split.
  - intros Hne. apply isEmpty_false in Hne. rewrite Hne. reflexivity.
  - intros He. rewrite He. cbn [isEmpty String.eqb negb].
    eexists. split; [reflexivity|]. repeat split.
    + intros Hb. rewrite Hb. eexists. split; reflexivity.
    + intros text Hb. rewrite Hb. eexists. split; reflexivity.
    + intros r Hb Hr. rewrite Hb. apply isEmpty_false in Hr. rewrite Hr. reflexivity.
Qed.

Lemma withoutKey_other_section (sec key sec' key' : string) (f : File) :
  (sec' =? sec)%string = false ->
  keyString (withoutKey sec key f) sec' key' = keyString f sec' key'.
Proof. intros H. cbn. now rewrite H. Qed.

Lemma withoutKey_other_key (sec key key' : string) (f : File) :
  (key' =? key)%string = false ->
  keyString (withoutKey sec key f) sec key' = keyString f sec key'.
Proof. intros H. cbn. now rewrite H, andb_false_r. Qed.

Lemma withoutKey_same (sec key : string) (f : File) :
  keyString (withoutKey sec key f) sec key = EmptyString.
Proof. cbn. now rewrite !String.eqb_refl. Qed.

Lemma withoutKey_keyStrings (sec key : string) (f : File) :
  keyStrings (withoutKey sec key f) sec =
  filter (fun k => negb (k =? key)%string) (keyStrings f sec).
Proof. cbn. now rewrite String.eqb_refl. Qed.

Lemma filter_other_key (key k0 : string) (l : list string) :
  In k0 l -> k0 <> key ->
  filter (fun k => negb (k =? key)%string) l <> [].
Proof.
  intros Hin Hne Hf.
  assert (H : In k0 (filter (fun k => negb (k =? key)%string) l)).
  { apply filter_In. split; [exact Hin|].
    apply negb_true_iff. now apply String.eqb_neq. }
  rewrite Hf in H. exact H.
Qed.

Lemma filter_only_key (key : string) (l : list string) :
  (forall k : string, In k l -> k = key) ->
  filter (fun k => negb (k =? key)%string) l = [].
Proof.
  induction l as [|k l IH]; intros H; [reflexivity|].
  cbn [filter]. rewrite (H k (or_introl eq_refl)), String.eqb_refl. cbn [negb].
  apply IH. intros k' Hk'. apply H. now right.
Qed.

(** C10, amended: when [ad_server] is exactly ["ldap://"], [New] stores an
    empty [staticServerFQDN] and [ServerFQDN] issues the ActiveServer call.
    When the section of the domain holds another key, [New] on the same
    configuration without the [ad_server] key builds the same backend, so
    that [ServerFQDN] behaves exactly as if no [ad_server] had been
    configured. When [ad_server] is the only key of the section, [New]
    fails without it: the section then shows no key. *)
Theorem ldap_scheme_only (load : string -> File + error) (c : Config) (cfg : File) (s : SSS) :
  load (Conf (withDefaults K c)) = inl cfg ->
  keyString cfg ("domain/" ++ firstDomain cfg) "ad_server" = "ldap://" ->
  New K L load c = (s, None) ->
  staticServerFQDN s = EmptyString /\
  (exists obj : BusObject,
     domainDbus s = Some obj /\
     forall bus : Bus, snd (ServerFQDN K s bus) = [activeServerCall K obj]) /\
  (forall load' : string -> File + error,
     load' (Conf (withDefaults K c)) =
       inl (withoutKey ("domain/" ++ firstDomain cfg) "ad_server" cfg) ->
     ((exists k : string,
         In k (keyStrings cfg ("domain/" ++ firstDomain cfg)) /\
         k <> "ad_server") ->
      New K L load' c = (s, None)) /\
     ((forall k : string,
         In k (keyStrings cfg ("domain/" ++ firstDomain cfg)) ->
         k = "ad_server") ->
      New K L load' c =
      (SSS_zero,
       Some (wrapped (CantGetDomainConfiguration c)
               (errorsNew (CouldNotFindDomainSection (firstDomain cfg))))))).
Proof.
  intros Hl Hsrv H.
  destruct (New_success load c s H) as (cfg0 & Hl0 & Hd & _ & Hs).
  assert (E0 : cfg0 = cfg) by congruence.
  subst cfg0. cbv zeta in Hs.
  rewrite Hsrv in Hs. cbn [isEmpty String.eqb Ascii.eqb Bool.eqb negb] in Hs.
  change (TrimPrefix "ldap://" "ldap://") with EmptyString in Hs.
  split; [rewrite Hs; reflexivity|]. split.
  - subst s. eexists. split; [reflexivity|].
    intros bus. unfold ServerFQDN.
    cbn [staticServerFQDN domain domainDbus isEmpty String.eqb negb].
    destruct (bus _) as [r|text]; [destruct (isEmpty r)|]; reflexivity.
  - intros load' Hl'.
    set (sec := "domain/" ++ firstDomain cfg) in *.
    assert (Hfd : firstDomain (withoutKey sec "ad_server" cfg) = firstDomain cfg)
      by reflexivity.
    apply isEmpty_false in Hd.
    unfold New. rewrite Hl'. fold (firstDomain (withoutKey sec "ad_server" cfg)).
    rewrite Hfd, Hd. fold sec. rewrite withoutKey_keyStrings. split.
    + intros (k0 & Hin & Hne).
      destruct (filter _ (keyStrings cfg sec)) as [|k ks] eqn:Hf;
        [now elim (filter_other_key "ad_server" k0 _ Hin Hne)|].
      cbn [List.length Nat.eqb OnError].
      rewrite withoutKey_same.
      rewrite (withoutKey_other_key _ "ad_server" "ad_domain") by reflexivity.
      rewrite (withoutKey_other_section _ _ "sssd") by reflexivity.
      cbn [isEmpty String.eqb negb]. now rewrite Hs.
    + intros Honly. now rewrite (filter_only_key "ad_server" _ Honly).
Qed.

End BackendFacts.

(** ** The claims on concrete configurations *)

Lemma New_configuration_errors_witness :
  New sampleConsts sampleLib (always (fileOf [])) zeroConfig =
  (SSS_zero,
   Some (wrapped (CantGetDomainConfiguration zeroConfig)
           (errorsNew FailedToFindDefaultDomain))) /\
  New sampleConsts sampleLib (always orphanFile) zeroConfig =
  (SSS_zero,
   Some (wrapped (CantGetDomainConfiguration zeroConfig)
           (errorsNew (CouldNotFindDomainSection "corp")))).
Proof.
  split.
  - apply (New_configuration_errors sampleConsts sampleLib
             (always (fileOf [])) zeroConfig (fileOf []) eq_refl).
    reflexivity.
  - apply (New_configuration_errors sampleConsts sampleLib
             (always orphanFile) zeroConfig orphanFile eq_refl).
    + discriminate.
    + reflexivity.
Defined.

Lemma New_nonempty_fields_witness :
  domain (backendOf corpFile) <> EmptyString /\
  defaultDomainSuffix (backendOf corpFile) <> EmptyString.
Proof.
  destruct (New_nonempty_fields sampleConsts sampleLib (always corpFile)
              zeroConfig (backendOf corpFile) eq_refl) as (H1 & H2 & _).
  split; assumption.
Defined.

Lemma New_first_domain_witness :
  exists s : SSS,
    New sampleConsts sampleLib (always corpFile) zeroConfig = (s, None) /\
    domain s = "corp" /\
    (keyString corpFile "sssd" "default_domain_suffix" = EmptyString ->
     defaultDomainSuffix s = "corp").
Proof.
  apply (New_first_domain sampleConsts sampleLib (always corpFile)
           zeroConfig corpFile eq_refl eq_refl).
  - discriminate.
  - reflexivity.
Defined.

Lemma HostKrb5CCName_path_witness :
  HostKrb5CCName (backendOf corpFile) = ("/var/lib/sss/db/ccache_CORP", None).
Proof.
  exact (proj1 (HostKrb5CCName_path sampleConsts sampleLib (always corpFile)
                  zeroConfig (backendOf corpFile) eq_refl)).
Defined.

Lemma ServerFQDN_spec_witness :
  ServerFQDN sampleConsts (backendOf corpStaticFile) busDown =
  (Returns ("dc1.corp.example", None), []) /\
  (exists (obj : BusObject) (e : error),
     ServerFQDN sampleConsts (backendOf corpFile) busNoServer =
     (Returns (EmptyString, Some e), [activeServerCall sampleConsts obj]) /\
     IsNoActiveServer e = true) /\
  (exists (obj : BusObject) (e : error),
     ServerFQDN sampleConsts (backendOf corpFile) busDown =
     (Returns (EmptyString, Some e), [activeServerCall sampleConsts obj]) /\
     IsNoActiveServer e = false) /\
  (exists obj : BusObject,
     ServerFQDN sampleConsts (backendOf corpFile) busActive =
     (Returns ("dc2.corp.example", None), [activeServerCall sampleConsts obj])).
Proof.
  split; [|split; [|split]].
  - apply (ServerFQDN_spec sampleConsts sampleLib (always corpStaticFile)
             zeroConfig (backendOf corpStaticFile) busDown eq_refl).
    discriminate.
  - destruct (proj2 (ServerFQDN_spec sampleConsts sampleLib (always corpFile)
                       zeroConfig (backendOf corpFile) busNoServer eq_refl)
                eq_refl) as (obj & _ & H & _).
    destruct (H eq_refl) as (e & He). now exists obj, e.
  - destruct (proj2 (ServerFQDN_spec sampleConsts sampleLib (always corpFile)
                       zeroConfig (backendOf corpFile) busDown eq_refl)
                eq_refl) as (obj & _ & _ & H & _).
    destruct (H _ eq_refl) as (e & He). now exists obj, e.
  - destruct (proj2 (ServerFQDN_spec sampleConsts sampleLib (always corpFile)
                       zeroConfig (backendOf corpFile) busActive eq_refl)
                eq_refl) as (obj & _ & _ & _ & H).
    exists obj. apply (H _ eq_refl). discriminate.
Defined.

Lemma ldap_scheme_only_witness :
  staticServerFQDN (backendOf corpSchemeFile) = EmptyString /\
  New sampleConsts sampleLib
    (always (withoutKey "domain/corp" "ad_server" corpSchemeFile)) zeroConfig =
  (backendOf corpSchemeFile, None) /\
  New sampleConsts sampleLib
    (always (withoutKey "domain/corp" "ad_server" loneSchemeFile)) zeroConfig =
  (SSS_zero,
   Some (wrapped (CantGetDomainConfiguration zeroConfig)
           (errorsNew (CouldNotFindDomainSection "corp")))).
Proof.
  destruct (ldap_scheme_only sampleConsts sampleLib (always corpSchemeFile)
              zeroConfig corpSchemeFile (backendOf corpSchemeFile)
              eq_refl eq_refl eq_refl) as (H1 & _ & H3).
  destruct (ldap_scheme_only sampleConsts sampleLib (always loneSchemeFile)
              zeroConfig loneSchemeFile (backendOf loneSchemeFile)
              eq_refl eq_refl eq_refl) as (_ & _ & H3').
  split; [exact H1|]. split.
  - apply (H3 (always (withoutKey "domain/corp" "ad_server" corpSchemeFile)) eq_refl).
    exists "id_provider". split; [now left | discriminate].
  - apply (H3' (always (withoutKey "domain/corp" "ad_server" loneSchemeFile)) eq_refl).
    intros k [<-|[]]. reflexivity.
Defined.

(** C10, as stated, fails: with [ad_server = ldap://] as the only key of
    [domain/corp], [New] succeeds, stores an empty [staticServerFQDN] and
    [ServerFQDN] discovers the server on the bus; the same configuration
    without the [ad_server] key makes [New] fail, the section showing no
    key, and on what it returns [ServerFQDN] panics. *)
Lemma ldap_scheme_only_counterexample :
  keyString loneSchemeFile "domain/corp" "ad_server" = "ldap://" /\
  New sampleConsts sampleLib (always loneSchemeFile) zeroConfig =
  (backendOf loneSchemeFile, None) /\
  staticServerFQDN (backendOf loneSchemeFile) = EmptyString /\
  fst (ServerFQDN sampleConsts (backendOf loneSchemeFile) busActive) =
  Returns ("dc2.corp.example", None) /\
  keyString (withoutKey "domain/corp" "ad_server" loneSchemeFile)
    "domain/corp" "ad_server" = EmptyString /\
  New sampleConsts sampleLib
    (always (withoutKey "domain/corp" "ad_server" loneSchemeFile)) zeroConfig =
  (SSS_zero,
   Some (wrapped (CantGetDomainConfiguration zeroConfig)
           (errorsNew (CouldNotFindDomainSection "corp")))) /\
  ServerFQDN sampleConsts
    (fst (New sampleConsts sampleLib
            (always (withoutKey "domain/corp" "ad_server" loneSchemeFile))
            zeroConfig)) busActive = (Panics, []) /\
  ServerFQDN sampleConsts
    (fst (New sampleConsts sampleLib
            (always (withoutKey "domain/corp" "ad_server" loneSchemeFile))
            zeroConfig)) busActive <>
  ServerFQDN sampleConsts (backendOf loneSchemeFile) busActive.
Proof. repeat split; try reflexivity. discriminate. Qed.

(** * Further properties of the backend *)

(** ** The alphabet of the encoded form *)

Lemma allPathBytes_app (a b : string) :
  allPathBytes (a ++ b) = allPathBytes a && allPathBytes b.
Proof.
  induction a as [|c a IH]; simpl; [reflexivity|].
  now rewrite IH, andb_assoc.
Qed.

Lemma ldigit_path_byte (d : N) : d < 16 -> isPathByte (ldigit d) = true.
Proof.
  intros H.
  assert (E : exists k : nat, (k < 16)%nat /\ d = N.of_nat k).
  { exists (N.to_nat d). split; [lia | now rewrite N2Nat.id]. }
  destruct E as (k & Hk & ->).
  do 16 (destruct k as [|k]; [reflexivity|]). lia.
Qed.

Lemma land_15_lt (u : N) : N.land u 0xF < 16.
Proof.
  change 0xF with (N.ones 4). rewrite N.land_ones.
  apply N.mod_lt. discriminate.
Qed.

Lemma fmtHex_path_bytes (fuel : nat) : forall (u : N) (acc : string),
  allPathBytes acc = true -> allPathBytes (fmtHex fuel u acc) = true.
Proof.
  induction fuel as [|k IH]; intros u acc Hacc; [exact Hacc|].
  cbn [fmtHex]. destruct (u <? 16) eqn:Hu.
  - cbn [allPathBytes]. apply N.ltb_lt in Hu.
    now rewrite (ldigit_path_byte u Hu).
  - apply IH. cbn [allPathBytes].
    now rewrite (ldigit_path_byte _ (land_15_lt u)).
Qed.

Lemma padZero_path_bytes (n : nat) : forall s : string,
  allPathBytes s = true -> allPathBytes (padZero n s) = true.
Proof.
  induction n as [|n IH]; intros s Hs; [exact Hs|].
  cbn [padZero]. apply IH. cbn [allPathBytes]. now rewrite Hs.
Qed.

Lemma Sprintf_02x_path_bytes (c : rune) : allPathBytes (Sprintf_02x c) = true.
Proof.
  unfold Sprintf_02x, hex. apply padZero_path_bytes, fmtHex_path_bytes.
  reflexivity.
Qed.

Lemma isPathRune_lt (c : rune) : isPathRune c = true -> c < 128.
Proof.
  unfold isPathRune, between. intros H.
  repeat match type of H with
         | (_ || _) = true => apply orb_prop in H as [H|H]
         | (_ && _) = true => apply andb_prop in H as [_ H]
         end;
    try apply N.leb_le in H; try apply N.eqb_eq in H; lia.
Qed.

(** A rune that passes the test is appended as the one byte it is. *)
Lemma runeToString_path_rune (c : rune) :
  isPathRune c = true ->
  runeToString c = String (byteOf c) EmptyString /\ byteVal (byteOf c) = c.
Proof.
  intros H. pose proof (isPathRune_lt c H) as Hlt.
  unfold runeToString. replace (c <=? 0x7F) with true
    by (symmetry; apply N.leb_le; lia).
  split; [reflexivity|].
  unfold byteVal, byteOf. rewrite N.mod_small by lia.
  apply N_ascii_embedding. lia.
Qed.

Lemma objectPathStep_path_bytes (c : rune) :
  allPathBytes (objectPathStep EmptyString c) = true.
Proof.
  unfold objectPathStep. destruct (isPathRune c) eqn:Hc.
  - destruct (runeToString_path_rune c Hc) as [-> Hb].
    cbn [append allPathBytes]. unfold isPathByte. now rewrite Hb, Hc.
  - cbn [append allPathBytes]. now rewrite Sprintf_02x_path_bytes.
Qed.

Lemma fold_objectPathStep_path_bytes (l : list rune) :
  allPathBytes (fold_left objectPathStep l EmptyString) = true.
Proof.
  induction l as [|c l IH]; [reflexivity|].
  cbn [fold_left]. rewrite fold_objectPathStep, allPathBytes_app.
  now rewrite objectPathStep_path_bytes, IH.
Qed.

(** X1: whatever the input, valid UTF-8 or not, every byte of the encoded
    form lies in [0-9A-Za-z_]. *)
Theorem domainToObjectPath_alphabet (s : string) :
  allPathBytes (domainToObjectPath s) = true.
Proof. apply fold_objectPathStep_path_bytes. Qed.

(** X2: encoding is idempotent: an encoded form is left as it is by a
    second encoding. *)
Theorem domainToObjectPath_idempotent (s : string) :
  domainToObjectPath (domainToObjectPath s) = domainToObjectPath s.
Proof.
  pose proof (fold_objectPathStep_path_bytes (rangeString s)) as H.
  fold (domainToObjectPath s) in H.
  rewrite (domainToObjectPath_ascii _ (allPathBytes_isASCII _ H)).
  now apply encodeBytes_id.
Qed.

Lemma objectPathStep_nonempty (c : rune) :
  objectPathStep EmptyString c <> EmptyString.
Proof.
  unfold objectPathStep. destruct (isPathRune c) eqn:Hc.
  - destruct (runeToString_path_rune c Hc) as [-> _]. discriminate.
  - discriminate.
Qed.

(** X3: the encoded form is empty for the empty string and for no other
    input. *)
Theorem domainToObjectPath_empty (s : string) :
  domainToObjectPath s = EmptyString <-> s = EmptyString.
Proof.
  split; [|intros ->; reflexivity].
  destruct s as [|b t]; [reflexivity|]. intros H. exfalso.
  unfold domainToObjectPath, rangeString in H. cbn [String.length rangeFrom] in H.
  destruct (DecodeRuneInString (String b t)) as [c size].
  cbn [fold_left] in H. rewrite fold_objectPathStep in H.
  destruct (objectPathStep EmptyString c) eqn:E;
    [now apply (objectPathStep_nonempty c) | discriminate].
Qed.

(** The encoding of a string that starts with an ASCII byte. *)
Lemma domainToObjectPath_ascii_cons (b : ascii) (t : string) :
  (byteVal b <? 0x80) = true ->
  domainToObjectPath (String b t) =
  (if isPathByte b then String b EmptyString else escapeByte b) ++ domainToObjectPath t.
Proof.
  intros Hb. unfold domainToObjectPath.
  rewrite (rangeString_ascii_cons b t Hb). cbn [fold_left].
  now rewrite fold_objectPathStep, objectPathStep_byte.
Qed.

(** X4: an ASCII prefix is encoded on its own: the encoded form of
    [a ++ b] is that of [a] followed by that of [b], whatever [b] is. *)
Theorem domainToObjectPath_app (a b : string) :
  isASCII a = true ->
  domainToObjectPath (a ++ b) = domainToObjectPath a ++ domainToObjectPath b.
Proof.
  induction a as [|c a IH]; intros H; [reflexivity|].
  simpl in H. apply andb_prop in H as [Hc Ha].
  cbn [append]. rewrite !(domainToObjectPath_ascii_cons c _ Hc), (IH Ha).
  symmetry. apply append_assoc.
Qed.

Lemma domainToObjectPath_app_witness :
  domainToObjectPath ("corp." ++ e_acute) = "corp_2e" ++ "_e9".
Proof. apply (domainToObjectPath_app "corp." e_acute). reflexivity. Defined.

(** X5: on ASCII strings in which no ['_'] is followed by two lowercase
    hexadecimal digits the encoding is injective: two different such
    strings have different encoded forms. *)
Theorem domainToObjectPath_injective (s1 s2 : string) :
  isASCII s1 = true -> noEscapeLook s1 = true ->
  isASCII s2 = true -> noEscapeLook s2 = true ->
  s1 <> s2 -> domainToObjectPath s1 <> domainToObjectPath s2.
Proof.
  intros A1 N1 A2 N2 Hne H. apply Hne.
  rewrite (domainToObjectPath_ascii s1 A1), (domainToObjectPath_ascii s2 A2) in H.
  rewrite <- (decode_encodeBytes s1 N1), <- (decode_encodeBytes s2 N2).
  now rewrite H.
Qed.

Lemma domainToObjectPath_injective_witness :
  domainToObjectPath "corp.example" <> domainToObjectPath "corp-example".
Proof.
  apply (domainToObjectPath_injective "corp.example" "corp-example");
    try reflexivity.
  discriminate.
Defined.

(** ** The constructor, further *)

Section BackendMore.

Variable K : Consts.
Variable L : GoLib.

(** X6: [New] fails for three reasons only, and always with the error
    decorated by the configuration as passed: the loader failed (its error
    is the one wrapped), the first listed domain is empty, or its section
    shows no key. Otherwise the error is nil and the backend has a domain,
    a bus object and the configuration with its defaults. *)
Theorem New_outcome (load : string -> File + error) (c : Config) :
  (exists s : SSS,
     New K L load c = (s, None) /\
     domain s <> EmptyString /\
     domainDbus s <> None /\
     serverFQDN s = staticServerFQDN s /\
     config s = withDefaults K c) \/
  (exists e0 : error,
     New K L load c =
     (SSS_zero, Some (wrapped (CantGetDomainConfiguration c) e0)) /\
     (load (Conf (withDefaults K c)) = inr e0 \/
      exists cfg : File,
        load (Conf (withDefaults K c)) = inl cfg /\
        ((e0 = errorsNew FailedToFindDefaultDomain /\
          firstDomain cfg = EmptyString) \/
         (e0 = errorsNew (CouldNotFindDomainSection (firstDomain cfg)) /\
          firstDomain cfg <> EmptyString /\
          keyStrings cfg ("domain/" ++ firstDomain cfg) = [])))).
Proof.
  unfold New. destruct (load (Conf (withDefaults K c))) as [cfg|err].
  - fold (firstDomain cfg). destruct (isEmpty (firstDomain cfg)) eqn:Hd.
    + right. eexists. split; [reflexivity|]. right. exists cfg.
      split; [reflexivity|]. left. split; [reflexivity|].
      now apply isEmpty_true.
    + apply isEmpty_false in Hd.
      destruct (keyStrings cfg ("domain/" ++ firstDomain cfg)) as [|k ks] eqn:Hk.
      * right. eexists. split; [reflexivity|]. right. exists cfg.
        split; [reflexivity|]. right. now repeat split.
      * left. eexists. split; [reflexivity|].
        cbn [domain domainDbus serverFQDN staticServerFQDN config].
        repeat split; try discriminate.
        destruct (isEmpty (keyString cfg _ "ad_domain")) eqn:E;
          [exact Hd | now apply isEmpty_false].
  - right. exists err. split; [reflexivity|]. now left.
Qed.

Lemma SplitFirst_no_sep (d : string) (sep : ascii) :
  hasByte sep d = false -> SplitFirst d sep = d.
Proof.
  induction d as [|b d IH]; [reflexivity|].
  cbn [hasByte SplitFirst]. intros H. apply orb_false_iff in H as [Hb Hd].
  now rewrite Hb, (IH Hd).
Qed.

Lemma SplitFirst_app (d rest : string) (sep : ascii) :
  hasByte sep d = false -> SplitFirst (d ++ String sep rest) sep = d.
Proof.
  induction d as [|b d IH]; cbn [hasByte SplitFirst append].
  - intros _. now rewrite Ascii.eqb_refl.
  - intros H. apply orb_false_iff in H as [Hb Hd]. now rewrite Hb, (IH Hd).
Qed.

Lemma SplitFirst_hasByte (s : string) (sep : ascii) :
  hasByte sep (SplitFirst s sep) = false.
Proof.
  induction s as [|b s IH]; [reflexivity|].
  cbn [SplitFirst]. destruct (Ascii.eqb b sep) eqn:E; [reflexivity|].
  cbn [hasByte]. now rewrite E, IH.
Qed.

(** X7: only what stands before the first comma of [domains] counts: a
    configuration listing [d,rest] gives the same result, backend and
    error, as the one listing [d] alone. *)
Theorem New_first_domain_only (c : Config) (cfg : File) (d rest : string) :
  hasByte ","%char d = false ->
  keyString cfg "sssd" "domains" = d ++ "," ++ rest ->
  New K L (always cfg) c =
  New K L (always (withValue "sssd" "domains" d cfg)) c.
Proof.
  intros Hd Hk. unfold New, always.
  assert (E1 : SplitFirst (keyString cfg "sssd" "domains") ","%char = d)
    by (rewrite Hk; now apply SplitFirst_app).
  assert (E2 : SplitFirst
                 (keyString (withValue "sssd" "domains" d cfg) "sssd" "domains")
                 ","%char = d)
    by (cbn; now apply SplitFirst_no_sep).
  rewrite E1, E2. cbn [keyStrings withValue].
  assert (E3 : forall k : string,
             (k =? "domains")%string = false ->
             keyString (withValue "sssd" "domains" d cfg) "sssd" k =
             keyString cfg "sssd" k)
    by (intros k Hkk; cbn; now rewrite Hkk).
  assert (E4 : forall k : string,
             keyString (withValue "sssd" "domains" d cfg) ("domain/" ++ d) k =
             keyString cfg ("domain/" ++ d) k)
    by (intros k; reflexivity).
  rewrite (E3 "default_domain_suffix" eq_refl), !E4. reflexivity.
Qed.

End BackendMore.

Lemma New_first_domain_only_witness :
  New sampleConsts sampleLib (always corpFile) zeroConfig =
  New sampleConsts sampleLib
    (always (withValue "sssd" "domains" "corp" corpFile)) zeroConfig.
Proof.
  apply (New_first_domain_only sampleConsts sampleLib zeroConfig corpFile
           "corp" "extra"); reflexivity.
Defined.

(** ** The methods, further *)

Lemma prefix_split (p : string) : forall s : string,
  String.prefix p s = true -> s = p ++ drop (String.length p) s.
Proof.
  induction p as [|a p IH]; intros s H; [reflexivity|].
  destruct s as [|b s]; [discriminate|]. cbn [String.prefix] in H.
  destruct (ascii_dec a b) as [->|]; [|discriminate].
  cbn [append String.length drop]. now rewrite <- (IH s H).
Qed.

Lemma prefix_app (p s : string) : String.prefix p (p ++ s) = true.
Proof.
  induction p as [|a p IH]; cbn [append String.prefix].
  - now destruct s.
  - destruct (ascii_dec a a) as [_|N]; [exact IH | now elim N].
Qed.

Lemma drop_app (p s : string) : drop (String.length p) (p ++ s) = s.
Proof. induction p as [|a p IH]; [reflexivity | exact IH]. Qed.

Lemma TrimPrefix_app (p s : string) : TrimPrefix (p ++ s) p = s.
Proof. unfold TrimPrefix. now rewrite prefix_app, drop_app. Qed.

(** What is left of [r] without the prefix [p] is empty only when [r] is
    empty or is [p] itself. *)
Lemma TrimPrefix_empty (r p : string) :
  TrimPrefix r p = EmptyString <-> r = EmptyString \/ r = p.
Proof.
  unfold TrimPrefix. split.
  - destruct (String.prefix p r) eqn:E; [|now left].
    intros H. right. rewrite (prefix_split p r E), H. apply append_nil_r.
  - intros [->| ->].
    + destruct (String.prefix p EmptyString); [|reflexivity].
      now destruct (String.length p).
    + pose proof (prefix_app p EmptyString) as H1.
      pose proof (drop_app p EmptyString) as H2.
      rewrite append_nil_r in H1, H2. now rewrite H1, H2.
Qed.

Section MethodFacts.

Variable K : Consts.
Variable L : GoLib.

(** X8: a configured [ad_server = ldap://h] with a host [h] makes
    [ServerFQDN] return [h], with a nil error and without any call on the
    bus, whatever the state of the remote service. *)
Theorem ServerFQDN_static_host (load : string -> File + error) (c : Config)
    (cfg : File) (s : SSS) (h : string) (bus : Bus) :
  load (Conf (withDefaults K c)) = inl cfg ->
  keyString cfg ("domain/" ++ firstDomain cfg) "ad_server" = "ldap://" ++ h ->
  h <> EmptyString ->
  New K L load c = (s, None) ->
  ServerFQDN K s bus = (Returns (h, None), []).
Proof.
  intros Hl Hsrv Hh H.
  destruct (New_success K L load c s H) as (cfg0 & Hl0 & _ & _ & Hs).
  assert (E0 : cfg0 = cfg) by congruence.
  subst cfg0. cbv zeta in Hs. rewrite Hsrv in Hs.
  change (isEmpty ("ldap://" ++ h)) with false in Hs. cbn [negb] in Hs.
  rewrite (TrimPrefix_app "ldap://" h) in Hs. subst s.
  unfold ServerFQDN. cbn [staticServerFQDN].
  apply isEmpty_false in Hh. now rewrite Hh.
Qed.

(** X9: the backend that comes with an error of [New] must not be used:
    on it both methods that call the bus panic (the bus object is nil),
    before any call is issued. *)
Theorem failed_backend_panics (load : string -> File + error) (c : Config)
    (s : SSS) (e : error) (bus : Bus) (bbus : BoolBus) :
  New K L load c = (s, Some e) ->
  ServerFQDN K s bus = (Panics, []) /\ IsOnline K s bbus = (Panics, []).
Proof.
  intros H. rewrite (New_failure K L load c s e H). split; reflexivity.
Qed.

(** X10: on any backend, an error of [ServerFQDN] comes with the empty
    name, is decorated with the domain, and arises from the one call of
    the dynamic lookup only: the bus failed, or answered with the empty
    string. *)
Theorem ServerFQDN_error (sss : SSS) (bus : Bus) (name : string) (e : error)
    (calls : list BusCall) :
  ServerFQDN K sss bus = (Returns (name, Some e), calls) ->
  name = EmptyString /\
  staticServerFQDN sss = EmptyString /\
  exists obj : BusObject,
    domainDbus sss = Some obj /\
    calls = [activeServerCall K obj] /\
    ((exists text : string,
        bus (activeServerCall K obj) = inr text /\
        e = wrapped (ErrorLookingUpServer (domain sss)) (external text)) \/
     (bus (activeServerCall K obj) = inl EmptyString /\
      e = wrapped (ErrorLookingUpServer (domain sss)) ErrNoActiveServer)).
Proof.
  unfold ServerFQDN.
  destruct (isEmpty (staticServerFQDN sss)) eqn:Hs; cbn [negb]; [|discriminate].
  apply isEmpty_true in Hs.
  destruct (domainDbus sss) as [obj|]; [|discriminate].
  destruct (bus (activeServerCall K obj)) as [r|text] eqn:Hb.
  - destruct (isEmpty r) eqn:Hr; [|discriminate].
    apply isEmpty_true in Hr. subst r. cbn [OnError].
    intros [= <- <- <-]. repeat split; [exact Hs|].
    exists obj. repeat split. now right.
  - cbn [OnError]. intros [= <- <- <-]. repeat split; [exact Hs|].
    exists obj. repeat split. left. now exists text.
Qed.

(** X11: on a backend with a bus object, [ServerFQDN] returns the empty
    name with a nil error in one case only: nothing is configured and the
    remote service answers with the bare scheme ["ldap://"]. *)
Theorem ServerFQDN_empty_name (sss : SSS) (obj : BusObject) (bus : Bus)
    (calls : list BusCall) :
  domainDbus sss = Some obj ->
  ServerFQDN K sss bus = (Returns (EmptyString, None), calls) <->
  staticServerFQDN sss = EmptyString /\
  bus (activeServerCall K obj) = inl "ldap://" /\
  calls = [activeServerCall K obj].
Proof.
  intros Ho. unfold ServerFQDN. rewrite Ho.
  destruct (isEmpty (staticServerFQDN sss)) eqn:Hs; cbn [negb].
  - apply isEmpty_true in Hs.
    destruct (bus (activeServerCall K obj)) as [r|text] eqn:Hb.
    + destruct (isEmpty r) eqn:Hr; cbn [OnError].
      * apply isEmpty_true in Hr. subst r. split; [discriminate|].
        intros (_ & Hx & _). discriminate.
      * apply isEmpty_false in Hr. split.
        -- intros [= Ht <-]. apply TrimPrefix_empty in Ht as [Ht|Ht];
             [contradiction | now subst r].
        -- intros (_ & [= ->] & ->). reflexivity.
    + cbn [OnError]. split; [discriminate|]. intros (_ & Hx & _). discriminate.
  - apply isEmpty_false in Hs. cbn [OnError]. split.
    + intros [= Hx _]. contradiction.
    + intros (Hx & _). contradiction.
Qed.

(** X12: on a backend built by [New], [IsOnline] issues exactly one call,
    IsOnline without argument, on the object whose path is the base path
    joined with the encoded domain, the object [ServerFQDN] queries. An
    answer is returned with a nil error; a failure of the bus is returned
    as an error with [false], never as an answer. *)
Theorem IsOnline_spec (load : string -> File + error) (c : Config) (s : SSS)
    (bus : BoolBus) :
  New K L load c = (s, None) ->
  exists obj : BusObject,
    domainDbus s = Some obj /\
    dest obj = SSSDDbusRegisteredName K /\
    path obj =
      filepath_Join L (SSSDDbusBaseObjectPath K) (domainToObjectPath (domain s)) /\
    snd (IsOnline K s bus) = [isOnlineCall K obj] /\
    (forall online : bool,
        bus (isOnlineCall K obj) = inl online ->
        fst (IsOnline K s bus) = Returns (online, None)) /\
    (forall text : string,
        bus (isOnlineCall K obj) = inr text ->
        fst (IsOnline K s bus) =
        Returns (false, Some (FailedToRetrieveOfflineState text))).
Proof.
  intros H. destruct (New_success K L load c s H) as (cfg & _ & _ & _ & ->).
  eexists. split; [reflexivity|]. unfold IsOnline. cbn [domainDbus dest path domain].
  repeat split.
  - destruct (bus _); reflexivity.
  - intros online Hb. now rewrite Hb.
  - intros text Hb. now rewrite Hb.
Qed.

(** X13: [Config] of a backend built by [New] reports the paths in use,
    not the ones passed: a path left empty shows as its default. *)
Theorem SSS_Config_effective (load : string -> File + error) (c : Config) (s : SSS) :
  New K L load c = (s, None) ->
  SSS_Config s =
  "Current backend is SSSD" ++ newline ++
  "Configuration: " ++
  (if isEmpty (Conf c) then DefaultSSSConf K else Conf c) ++ newline ++
  "Cache: " ++
  (if isEmpty (CacheDir c) then DefaultSSSCacheDir K else CacheDir c).
Proof.
  intros H. destruct (New_success K L load c s H) as (cfg & _ & _ & _ & ->).
  unfold SSS_Config, withDefaults. cbn [config].
  destruct (isEmpty (Conf c)), (isEmpty (CacheDir c)) eqn:E;
    cbn [Conf CacheDir]; rewrite ?E; reflexivity.
Qed.

End MethodFacts.

Lemma ServerFQDN_static_host_witness :
  ServerFQDN sampleConsts (backendOf corpStaticFile) busNoServer =
  (Returns ("dc1.corp.example", None), []).
Proof.
  apply (ServerFQDN_static_host sampleConsts sampleLib (always corpStaticFile)
           zeroConfig corpStaticFile (backendOf corpStaticFile)
           "dc1.corp.example" busNoServer eq_refl eq_refl).
  - discriminate.
  - reflexivity.
Defined.

Lemma failed_backend_panics_witness :
  ServerFQDN sampleConsts
    (fst (New sampleConsts sampleLib (always orphanFile) zeroConfig)) busActive =
  (Panics, []).
Proof.
  apply (failed_backend_panics sampleConsts sampleLib (always orphanFile)
           zeroConfig _ _ busActive (fun _ => inl true) eq_refl).
Defined.

Lemma ServerFQDN_error_witness :
  exists obj : BusObject,
    domainDbus (backendOf corpFile) = Some obj /\
    [activeServerCall sampleConsts obj] =
    snd (ServerFQDN sampleConsts (backendOf corpFile) busDown).
Proof.
  destruct (ServerFQDN_error sampleConsts (backendOf corpFile) busDown _ _ _ eq_refl)
    as (_ & _ & obj & Ho & Hc & _).
  exists obj. split; [exact Ho | symmetry; exact Hc].
Defined.

Lemma ServerFQDN_empty_name_witness :
  ServerFQDN sampleConsts (backendOf corpFile) (fun _ => inl "ldap://") =
  (Returns (EmptyString, None),
   [activeServerCall sampleConsts
      (mkBusObject "org.freedesktop.sssd.infopipe"
         "/org/freedesktop/sssd/infopipe/Domains/corp")]).
Proof.
  apply (ServerFQDN_empty_name sampleConsts (backendOf corpFile) _
           (fun _ => inl "ldap://") _ eq_refl).
  repeat split.
Defined.

Lemma IsOnline_spec_witness :
  exists obj : BusObject,
    path obj = "/org/freedesktop/sssd/infopipe/Domains/corp" /\
    IsOnline sampleConsts (backendOf corpFile) (fun _ => inr "down") =
    (Returns (false, Some (FailedToRetrieveOfflineState "down")),
     [isOnlineCall sampleConsts obj]).
Proof.
  destruct (IsOnline_spec sampleConsts sampleLib (always corpFile) zeroConfig
              (backendOf corpFile) (fun _ => inr "down") eq_refl)
    as (obj & _ & _ & Hp & Hc & _ & Hf).
  exists obj. split; [exact Hp|].
  rewrite (surjective_pairing (IsOnline _ _ _)), Hc, (Hf "down" eq_refl).
  reflexivity.
Defined.

Lemma SSS_Config_effective_witness :
  SSS_Config (backendOf corpFile) =
  "Current backend is SSSD" ++ newline ++
  "Configuration: /etc/sssd/sssd.conf" ++ newline ++
  "Cache: /var/lib/sss/db".
Proof.
  exact (SSS_Config_effective sampleConsts sampleLib (always corpFile) zeroConfig
           (backendOf corpFile) eq_refl).
Defined.

(** * Properties of the image helpers *)

Import Az.

(** ** The order on versions *)

Lemma ascii_compare_N (x y : ascii) :
  Ascii.compare x y = N.compare (byteVal x) (byteVal y).
Proof. reflexivity. Qed.

Lemma string_compare_refl (s : string) : String.compare s s = Eq.
Proof.
  induction s as [|c s IH]; [reflexivity|].
  cbn [String.compare]. rewrite ascii_compare_N, N.compare_refl. exact IH.
Qed.

Lemma string_leb_refl (s : string) : String.leb s s = true.
Proof. unfold String.leb. now rewrite string_compare_refl. Qed.

Lemma string_leb_trans (a : string) : forall b c : string,
  String.leb a b = true -> String.leb b c = true -> String.leb a c = true.
Proof.
  unfold String.leb.
  induction a as [|x a IH]; intros [|y b] [|z c]; cbn [String.compare];
    try reflexivity; try discriminate.
  rewrite !ascii_compare_N.
  destruct (N.compare_spec (byteVal x) (byteVal y)) as [Exy|Lxy|Gxy];
    try discriminate;
    destruct (N.compare_spec (byteVal y) (byteVal z)) as [Eyz|Lyz|Gyz];
    try discriminate; intros H1 H2.
  - rewrite Exy, Eyz, N.compare_refl. now apply (IH b c).
  - rewrite Exy. now rewrite (proj2 (N.compare_lt_iff _ _) Lyz).
  - rewrite <- Eyz. now rewrite (proj2 (N.compare_lt_iff _ _) Lxy).
  - now rewrite (proj2 (N.compare_lt_iff _ _) (N.lt_trans _ _ _ Lxy Lyz)).
Qed.

Lemma versionGe_refl (a : Image) : versionGe a a.
Proof. apply string_leb_refl. Qed.

Lemma versionGe_trans (a b c : Image) :
  versionGe a b -> versionGe b c -> versionGe a c.
Proof. unfold versionGe. intros H1 H2. now apply (string_leb_trans _ (Version b)). Qed.

(** ** The sort by insertion meets what is asked of slices.SortFunc *)

Lemma insertByVersion_perm (x : Image) (l : list Image) :
  Permutation (x :: l) (insertByVersion x l).
Proof.
  induction l as [|y t IH]; [apply Permutation_refl|].
  cbn [insertByVersion]. destruct (byVersionDesc x y); try apply Permutation_refl.
  eapply perm_trans; [apply perm_swap | now apply perm_skip].
Qed.

Lemma insertByVersion_sorted (x : Image) (l : list Image) :
  StronglySorted versionGe l -> StronglySorted versionGe (insertByVersion x l).
Proof.
  induction l as [|y t IH]; intros Hs.
  - repeat constructor.
  - cbn [insertByVersion]. inversion Hs as [|? ? Ht Hy]; subst.
    assert (Hcases : byVersionDesc x y = Gt \/ versionGe x y).
    { unfold versionGe, String.leb, byVersionDesc.
      destruct (String.compare (Version y) (Version x)); auto. }
    destruct (byVersionDesc x y) eqn:E.
    + destruct Hcases as [|Hxy]; [discriminate|].
      constructor; [exact Hs|]. constructor; [exact Hxy|].
      eapply Forall_impl; [|exact Hy]. intros a Ha. now apply (versionGe_trans x y a).
    + destruct Hcases as [|Hxy]; [discriminate|].
      constructor; [exact Hs|]. constructor; [exact Hxy|].
      eapply Forall_impl; [|exact Hy]. intros a Ha. now apply (versionGe_trans x y a).
    + constructor; [now apply IH|].
      assert (Hyx : versionGe y x).
      { unfold versionGe, String.leb. unfold byVersionDesc in E.
        rewrite String.compare_antisym, E. reflexivity. }
      eapply Permutation_Forall; [apply insertByVersion_perm|].
      constructor; assumption.
Qed.

Lemma insertionSort_spec : SortFunc_spec insertionSort.
Proof.
  intros l. induction l as [|x l [IHp IHs]]; [split; constructor|].
  cbn [insertionSort fold_right]. split.
  - eapply perm_trans; [apply perm_skip, IHp | apply insertByVersion_perm].
  - now apply insertByVersion_sorted.
Qed.

(** ** The selectors *)

Section SelectorFacts.

Variable SortFunc : list Image -> list Image.
Hypothesis SortFunc_ok : SortFunc_spec SortFunc.

(** The head of a sorted non-empty slice is one of its elements and no
    element has a greater version. *)
Lemma sorted_head (l : list Image) :
  l <> [] ->
  In (hd Image_zero (SortFunc l)) l /\
  forall i : Image, In i l -> versionGe (hd Image_zero (SortFunc l)) i.
Proof.
  intros Hne. destruct (SortFunc_ok l) as [Hp Hs].
  destruct (SortFunc l) as [|r t] eqn:E.
  - apply Permutation_sym, Permutation_nil in Hp. contradiction.
  - cbn [hd]. split.
    + apply (Permutation_in r (Permutation_sym Hp)). now left.
    + intros i Hi. apply (Permutation_in i Hp) in Hi as [<-|Hi].
      * apply versionGe_refl.
      * inversion Hs as [|? ? _ Hr]; subst.
        now apply (proj1 (Forall_forall _ _) Hr).
Qed.

Lemma filter_nonempty (p : Image -> bool) (l : list Image) :
  (List.length (filter p l) =? 0)%nat = false -> filter p l <> [].
Proof. destruct (filter p l); [discriminate | discriminate]. Qed.

(** X14: the image [LatestDaily] returns is one of the images given, is an
    x64, second generation, daily image, and no such image of the list has
    a greater version (versions compared as strings, byte by byte). *)
Theorem LatestDaily_latest (images : Images) (r : Image) :
  LatestDaily SortFunc images = (r, None) ->
  In r images /\
  Architecture r = "x64" /\ isGen2Image r = true /\ isDailyImage r = true /\
  forall i : Image,
    In i images -> dailyEligible i = true ->
    String.leb (Version i) (Version r) = true.
Proof.
  unfold LatestDaily. fold dailyEligible.
  destruct (List.length (filter dailyEligible images) =? 0)%nat eqn:E; [discriminate|].
  intros [= <-].
  destruct (sorted_head _ (filter_nonempty _ _ E)) as [Hin Hmax].
  apply filter_In in Hin as [Hin Hel]. split; [exact Hin|].
  unfold dailyEligible in Hel.
  apply andb_prop in Hel as [Hel Hd]. apply andb_prop in Hel as [Ha Hg].
  apply String.eqb_eq in Ha. repeat split; try assumption.
  intros i Hi He. apply Hmax, filter_In. now split.
Qed.

(** X15: the image [LatestStable] returns is one of the images given, is
    an x64, second generation image that is not a daily one, and no such
    image of the list has a greater version. *)
Theorem LatestStable_latest (images : Images) (r : Image) :
  LatestStable SortFunc images = (r, None) ->
  In r images /\
  Architecture r = "x64" /\ isGen2Image r = true /\ isDailyImage r = false /\
  forall i : Image,
    In i images -> stableEligible i = true ->
    String.leb (Version i) (Version r) = true.
Proof.
  unfold LatestStable. fold stableEligible.
  destruct (List.length (filter stableEligible images) =? 0)%nat eqn:E; [discriminate|].
  intros [= <-].
  destruct (sorted_head _ (filter_nonempty _ _ E)) as [Hin Hmax].
  apply filter_In in Hin as [Hin Hel]. split; [exact Hin|].
  unfold stableEligible in Hel.
  apply andb_prop in Hel as [Hel Hd]. apply andb_prop in Hel as [Ha Hg].
  apply String.eqb_eq in Ha. apply negb_true_iff in Hd.
  repeat split; try assumption.
  intros i Hi He. apply Hmax, filter_In. now split.
Qed.

(** X17: on the same list the two selectors never return the same image:
    the one is a daily image, the other is not. *)
Theorem daily_stable_differ (images : Images) (d s : Image) :
  LatestDaily SortFunc images = (d, None) ->
  LatestStable SortFunc images = (s, None) ->
  d <> s.
Proof.
  unfold LatestDaily, LatestStable. fold dailyEligible. fold stableEligible.
  destruct (List.length (filter dailyEligible images) =? 0)%nat eqn:Ed; [discriminate|].
  destruct (List.length (filter stableEligible images) =? 0)%nat eqn:Es; [discriminate|].
  intros [= Ed0] [= Es0].
  destruct (sorted_head _ (filter_nonempty _ _ Ed)) as [Hd _].
  destruct (sorted_head _ (filter_nonempty _ _ Es)) as [Hs _].
  rewrite Ed0 in Hd. rewrite Es0 in Hs.
  apply filter_In in Hd as [_ Hd]. apply filter_In in Hs as [_ Hs].
  unfold dailyEligible in Hd. unfold stableEligible in Hs.
  apply andb_prop in Hd as [_ Hd]. apply andb_prop in Hs as [_ Hs].
  apply negb_true_iff in Hs. intros E. rewrite E in Hd. congruence.
Qed.

End SelectorFacts.

Lemma filter_none {A : Type} (p : A -> bool) (l : list A) :
  filter p l = [] <-> forall x : A, In x l -> p x = false.
Proof.
  induction l as [|a l IH]; cbn [filter].
  - split; [intros _ x [] | reflexivity].
  - destruct (p a) eqn:E.
    + split; [discriminate|]. intros H. specialize (H a (or_introl eq_refl)).
      congruence.
    + rewrite IH. split.
      * intros H x [<-|Hx]; [exact E | now apply H].
      * intros H x Hx. apply H. now right.
Qed.

(** X16: whatever the sort does, each selector fails exactly when the list
    holds no image it keeps, and then returns the zero image with its own
    error. *)
Theorem selectors_fail (SortFunc : list Image -> list Image) (images : Images) :
  ((forall i : Image, In i images -> dailyEligible i = false) <->
   LatestDaily SortFunc images = (Image_zero, Some NoDailyImageFound)) /\
  ((forall i : Image, In i images -> stableEligible i = false) <->
   LatestStable SortFunc images = (Image_zero, Some NoStableImageFound)) /\
  (forall (r : Image) (e : selectError),
      LatestDaily SortFunc images = (r, Some e) ->
      r = Image_zero /\ e = NoDailyImageFound) /\
  (forall (r : Image) (e : selectError),
      LatestStable SortFunc images = (r, Some e) ->
      r = Image_zero /\ e = NoStableImageFound).
Proof.
  unfold LatestDaily, LatestStable. fold dailyEligible. fold stableEligible.
  rewrite <- !filter_none.
  destruct (filter dailyEligible images) as [|a l];
    destruct (filter stableEligible images) as [|b m];
    cbn [List.length Nat.eqb];
    repeat split; try discriminate; try reflexivity;
    intros; congruence.
Qed.

(** ** The build number *)

Lemma hasByte_app (c : ascii) (a b : string) :
  hasByte c (a ++ b) = hasByte c a || hasByte c b.
Proof.
  induction a as [|x a IH]; [reflexivity|].
  cbn [append hasByte]. now rewrite IH, orb_assoc.
Qed.

Lemma Split_nonempty (s : string) (sep : ascii) : Split s sep <> [].
Proof.
  destruct s as [|c t]; cbn [Split]; [discriminate|].
  destruct (Ascii.eqb c sep); [discriminate|].
  destruct (Split t sep); discriminate.
Qed.

Lemma Split_no_sep (s : string) (sep : ascii) :
  hasByte sep s = false -> Split s sep = [s].
Proof.
  induction s as [|c t IH]; [reflexivity|].
  cbn [hasByte Split]. intros H. apply orb_false_iff in H as [Hc Ht].
  now rewrite Hc, (IH Ht).
Qed.

Lemma last_cons {A : Type} (x d : A) (l : list A) :
  l <> [] -> last (x :: l) d = last l d.
Proof. destruct l; [contradiction | reflexivity]. Qed.

Lemma lastField_sep (sep : ascii) (t : string) :
  lastField sep (String sep t) = lastField sep t.
Proof.
  unfold lastField. cbn [Split]. rewrite Ascii.eqb_refl.
  apply last_cons, Split_nonempty.
Qed.

(** The fields of a string that holds the separator are two at least. *)
Lemma Split_has_sep (s : string) (sep : ascii) :
  hasByte sep s = true -> exists h x r, Split s sep = h :: x :: r.
Proof.
  induction s as [|c t IH]; [discriminate|].
  cbn [hasByte Split]. destruct (Ascii.eqb c sep).
  - intros _. destruct (Split t sep) as [|x r] eqn:E;
      [now elim (Split_nonempty t sep) | now exists EmptyString, x, r].
  - cbn [orb]. intros H. destruct (IH H) as (h & x & r & ->).
    now exists (String c h), x, r.
Qed.

Lemma lastField_has_sep (sep c : ascii) (t : string) :
  hasByte sep t = true -> lastField sep (String c t) = lastField sep t.
Proof.
  intros H. destruct (Ascii.eqb c sep) eqn:E.
  - apply Ascii.eqb_eq in E. subst c. apply lastField_sep.
  - unfold lastField. cbn [Split]. rewrite E.
    destruct (Split_has_sep t sep H) as (h & x & r & ->). reflexivity.
Qed.

Lemma lastField_no_sep (sep : ascii) (s : string) :
  hasByte sep s = false -> lastField sep s = s.
Proof. intros H. unfold lastField. now rewrite (Split_no_sep s sep H). Qed.

Lemma lastField_after_sep (sep : ascii) (pre b : string) :
  lastField sep (pre ++ String sep b) = lastField sep b.
Proof.
  induction pre as [|c p IH]; cbn [append]; [apply lastField_sep|].
  rewrite lastField_has_sep; [exact IH|].
  rewrite hasByte_app. cbn [hasByte]. rewrite Ascii.eqb_refl.
  apply orb_true_r.
Qed.

Lemma lastField_app (sep : ascii) (pre b : string) :
  hasByte sep b = false -> lastField sep (pre ++ b) = lastField sep pre ++ b.
Proof.
  intros Hb. induction pre as [|c p IH]; cbn [append].
  - now rewrite lastField_no_sep.
  - destruct (hasByte sep p) eqn:Hp.
    + rewrite !lastField_has_sep; [exact IH | exact Hp |].
      rewrite hasByte_app, Hp. reflexivity.
    + destruct (Ascii.eqb c sep) eqn:E.
      * apply Ascii.eqb_eq in E. subst c. now rewrite !lastField_sep.
      * rewrite !lastField_no_sep; [reflexivity | |];
          cbn [hasByte]; rewrite ?hasByte_app, E, Hp, ?Hb; reflexivity.
Qed.

Lemma lastField_suffix (sep : ascii) (s : string) :
  hasByte sep (lastField sep s) = false /\
  exists pre : string, s = pre ++ lastField sep s.
Proof.
  induction s as [|c t [IH1 (pre & IH2)]].
  - split; [reflexivity | now exists EmptyString].
  - destruct (hasByte sep t) eqn:Ht.
    + rewrite (lastField_has_sep sep c t Ht). split; [exact IH1|].
      exists (String c pre). cbn [append]. now rewrite <- IH2.
    + destruct (Ascii.eqb c sep) eqn:E.
      * apply Ascii.eqb_eq in E. subst c. rewrite lastField_sep.
        split; [exact IH1|]. exists (String sep pre). cbn [append].
        now rewrite <- IH2.
      * rewrite lastField_no_sep by (cbn [hasByte]; now rewrite E, Ht).
        split; [cbn [hasByte]; now rewrite E, Ht | now exists EmptyString].
Qed.

Lemma index_last (l : list string) :
  l <> [] -> index l (List.length l - 1) = Returns (last l EmptyString).
Proof.
  intros H. unfold index.
  destruct (exists_last H) as (l' & x & ->).
  rewrite last_last, length_app, nth_error_app2 by (cbn; lia).
  cbn [List.length]. replace (_ - _)%nat with 0%nat by lia. reflexivity.
Qed.

(** The two index expressions never panic: the build number is the last
    ['.'] field of the last [':'] field. *)
Lemma ImageBuildNumber_lastField (s : string) :
  ImageBuildNumber s = Returns (lastField "." (lastField ":" s)).
Proof.
  unfold ImageBuildNumber.
  rewrite (index_last _ (Split_nonempty s ":")). cbn [bind].
  rewrite (index_last _ (Split_nonempty _ ".")). reflexivity.
Qed.

(** X18: [ImageBuildNumber] returns on every input, never panics on an
    index; what it returns holds neither [':'] nor ['.'] and is the end of
    the input. *)
Theorem ImageBuildNumber_total (s : string) :
  exists r : string,
    ImageBuildNumber s = Returns r /\
    hasByte ":" r = false /\ hasByte "." r = false /\
    exists pre : string, s = pre ++ r.
Proof.
  exists (lastField "." (lastField ":" s)).
  split; [apply ImageBuildNumber_lastField|].
  destruct (lastField_suffix ":" s) as [H1 (p1 & E1)].
  destruct (lastField_suffix "." (lastField ":" s)) as [H2 (p2 & E2)].
  repeat split.
  - rewrite E2, hasByte_app in H1. now apply orb_false_iff in H1.
  - exact H2.
  - exists (p1 ++ p2). rewrite append_assoc, <- E2. exact E1.
Qed.

(** X19: for a string [b] without [':'] and ['.'], the build number of [b]
    alone, and of anything followed by [':'] or ['.'] and [b], is [b]. *)
Theorem ImageBuildNumber_field (pre b : string) :
  hasByte ":" b = false -> hasByte "." b = false ->
  ImageBuildNumber b = Returns b /\
  ImageBuildNumber (pre ++ String ":" b) = Returns b /\
  ImageBuildNumber (pre ++ String "." b) = Returns b.
Proof.
  intros Hc Hd. rewrite !ImageBuildNumber_lastField. repeat split.
  - now rewrite (lastField_no_sep ":" b Hc), (lastField_no_sep "." b Hd).
  - now rewrite lastField_after_sep, (lastField_no_sep ":" b Hc),
      (lastField_no_sep "." b Hd).
  - rewrite (lastField_app ":" pre (String "." b))
      by (cbn [hasByte]; now rewrite Hc).
    now rewrite lastField_after_sep, (lastField_no_sep "." b Hd).
Qed.

Lemma ImageBuildNumber_field_witness :
  ImageBuildNumber manticURN = Returns "202310110".
Proof.
  apply (ImageBuildNumber_field
           "Canonical:0001-com-ubuntu-minimal-mantic:minimal-23_10-gen2:23.10"
           "202310110"); reflexivity.
Defined.

Lemma LatestDaily_latest_witness :
  In (fst (LatestDaily insertionSort sampleImages)) sampleImages /\
  Version (fst (LatestDaily insertionSort sampleImages)) = "24.04.202405010" /\
  isDailyImage (fst (LatestDaily insertionSort sampleImages)) = true.
Proof.
  destruct (LatestDaily_latest insertionSort insertionSort_spec sampleImages
              _ eq_refl) as (H1 & _ & _ & H2 & _).
  split; [exact H1 | split; [reflexivity | exact H2]].
Defined.

Lemma LatestStable_latest_witness :
  In (fst (LatestStable insertionSort sampleImages)) sampleImages /\
  Version (fst (LatestStable insertionSort sampleImages)) = "24.04.202404230" /\
  isDailyImage (fst (LatestStable insertionSort sampleImages)) = false.
Proof.
  destruct (LatestStable_latest insertionSort insertionSort_spec sampleImages
              _ eq_refl) as (H1 & _ & _ & H2 & _).
  split; [exact H1 | split; [reflexivity | exact H2]].
Defined.

Lemma daily_stable_differ_witness :
  fst (LatestDaily insertionSort sampleImages) <>
  fst (LatestStable insertionSort sampleImages).
Proof.
  apply (daily_stable_differ insertionSort insertionSort_spec sampleImages);
    reflexivity.
Defined.

(** ** Listing images *)

Lemma Split_length (s : string) (sep : ascii) :
  List.length (Split s sep) = S (countByte sep s).
Proof.
  induction s as [|c t IH]; [reflexivity|].
  cbn [Split countByte]. destruct (Ascii.eqb c sep).
  - cbn [List.length]. now rewrite IH.
  - destruct (Split t sep) as [|h r]; [discriminate|]. exact IH.
Qed.

Lemma Split_app_sep (y t : string) (sep : ascii) :
  hasByte sep y = false -> Split (y ++ String sep t) sep = y :: Split t sep.
Proof.
  induction y as [|c y IH]; cbn [append hasByte Split].
  - intros _. now rewrite Ascii.eqb_refl.
  - intros H. apply orb_false_iff in H as [Hc Hy]. now rewrite Hc, (IH Hy).
Qed.

Lemma Split_two (y m : string) (sep : ascii) :
  hasByte sep y = false -> hasByte sep m = false ->
  Split (y ++ String sep m) sep = [y; m].
Proof.
  intros Hy Hm. now rewrite (Split_app_sep y m sep Hy), (Split_no_sep m sep Hm).
Qed.

(** Go's [y%2 == 0] is evenness, also for a negative [y]. *)
Lemma rem2_even (y : Z) : (Z.rem y 2 =? 0)%Z = Z.even y.
Proof.
  pose proof (Z.quot_rem' y 2) as E.
  assert (B : (Z.abs (Z.rem y 2) < Z.abs 2)%Z) by (apply Z.rem_bound_abs; lia).
  assert (C : Z.rem y 2 = (-1)%Z \/ Z.rem y 2 = 0%Z \/ Z.rem y 2 = 1%Z) by lia.
  rewrite E at 2. rewrite Z.add_comm, Z.even_add_mul_2.
  destruct C as [-> | [-> | ->]]; reflexivity.
Qed.

Section CommandFacts.

Variable RunCommand : list string -> string + string.
Variable decodeImages : string -> Images + string.
Variable decodeVersions : string -> list string + string.
Variable Less : string -> string -> bool.

(** X20: a version that does not hold exactly one ['.'], or whose part
    before the ['.'] is not a number, is refused by [ImageList] with its
    own error and without any command being run. *)
Theorem ImageList_rejects (codename : string) :
  (forall version : string,
      countByte "." version <> 1%nat ->
      ImageList RunCommand decodeImages codename version =
      (([], Some (InvalidVersionFormat version)), [])) /\
  (forall year minor : string,
      hasByte "." year = false -> hasByte "." minor = false ->
      Atoi year = None ->
      ImageList RunCommand decodeImages codename (year ++ String "." minor) =
      (([], Some FailedToParseVersionYear), [])).
Proof.
  split.
  - intros version H. unfold ImageList.
    pose proof (Split_length version ".") as Hl.
    destruct (Split version ".") as [|a [|b [|c r]]]; try reflexivity.
    cbn [List.length] in Hl. congruence.
  - intros year minor Hy Hm Ha. unfold ImageList.
    now rewrite (Split_two year minor "." Hy Hm), Ha.
Qed.

(** X21: for a codename of the old scheme (focal, jammy, mantic) and any
    version that is accepted, the one command run asks for the offer
    [0001-com-ubuntu-minimal-<codename>]: the version plays no part. *)
Theorem ImageList_old_codename (codename year minor : string) (y : Z) :
  In codename oldImageVersionCodenames ->
  hasByte "." year = false -> hasByte "." minor = false ->
  Atoi year = Some y ->
  snd (ImageList RunCommand decodeImages codename (year ++ String "." minor)) =
  [List.app imageListArgs ["--offer"; "0001-com-ubuntu-minimal-" ++ codename]].
Proof.
  intros Hc Hy Hm Ha. unfold ImageList.
  rewrite (Split_two year minor "." Hy Hm), Ha.
  assert (E : existsb (String.eqb codename) oldImageVersionCodenames = true).
  { apply existsb_exists. exists codename. split; [exact Hc | apply String.eqb_refl]. }
  rewrite E. fold imageListArgs.
  destruct (RunCommand _) as [out|text]; [destruct (decodeImages out)|]; reflexivity.
Qed.

(** X22: for any other codename the one command run asks for the offer
    [ubuntu-<year>_<minor>], with [-lts] added exactly when the year is
    even and the minor is ["04"], and for the sku [minimal]. *)
Theorem ImageList_offer (codename year minor : string) (y : Z) :
  ~ In codename oldImageVersionCodenames ->
  hasByte "." year = false -> hasByte "." minor = false ->
  Atoi year = Some y ->
  snd (ImageList RunCommand decodeImages codename (year ++ String "." minor)) =
  [List.app imageListArgs
     ["--offer";
      "ubuntu-" ++ year ++ "_" ++ minor ++
        (if Z.even y && (minor =? "04")%string then "-lts" else EmptyString);
      "--sku"; "minimal"]].
Proof.
  intros Hc Hy Hm Ha. unfold ImageList.
  rewrite (Split_two year minor "." Hy Hm), Ha.
  assert (E : existsb (String.eqb codename) oldImageVersionCodenames = false).
  { destruct (existsb _ _) eqn:E; [|reflexivity].
    apply existsb_exists in E as (x & Hx & Ex).
    apply String.eqb_eq in Ex. subst x. contradiction. }
  rewrite E. fold imageListArgs.
  rewrite rem2_even. cbn [String.concat].
  assert (A : forall t : string,
             ("ubuntu-" ++ year ++ "_" ++ minor) ++ t =
             "ubuntu-" ++ year ++ "_" ++ minor ++ t).
  { intros t. cbn [append]. rewrite !append_assoc. reflexivity. }
  destruct (Z.even y && (minor =? "04")%string).
  - rewrite A.
    destruct (RunCommand _) as [out|text]; [destruct (decodeImages out)|]; reflexivity.
  - rewrite <- (A EmptyString), append_nil_r.
    destruct (RunCommand _) as [out|text]; [destruct (decodeImages out)|]; reflexivity.
Qed.

(** The loop of [LatestImageVersion] keeps a version no version met so far
    is greater than. *)
Lemma fold_latestStep (versions : list string) :
  (forall a b c : string, Less a b = true -> Less b c = true -> Less a c = true) ->
  (forall a : string, Less a a = false) ->
  forall (cur : string) (seen : list string),
    (forall v : string, In v seen -> Less cur v = false) ->
    (fold_left (latestStep Less) versions cur = cur \/
     In (fold_left (latestStep Less) versions cur) versions) /\
    (forall v : string,
        In v seen \/ In v versions ->
        Less (fold_left (latestStep Less) versions cur) v = false).
Proof.
  intros Htrans Hirr. induction versions as [|x l IH]; intros cur seen Hseen.
  - split; [now left|]. intros v [Hv|[]]. now apply Hseen.
  - cbn [fold_left].
    assert (Hnext : forall v : string,
               In v (x :: seen) -> Less (latestStep Less cur x) v = false).
    { unfold latestStep. intros v [<-|Hv].
      - destruct (Less cur x) eqn:E; [apply Hirr | exact E].
      - destruct (Less cur x) eqn:E; [|now apply Hseen].
        destruct (Less x v) eqn:E'; [|reflexivity].
        rewrite <- (Hseen v Hv). symmetry. now apply (Htrans cur x v). }
    destruct (IH (latestStep Less cur x) (x :: seen) Hnext) as [H1 H2]. split.
    + destruct H1 as [H1|H1]; [|right; now right].
      rewrite H1. unfold latestStep. destruct (Less cur x); [right; now left | now left].
    + intros v [Hv|[<-|Hv]]; apply H2; cbn [In]; auto.
Qed.

(** X23: when natural.Less is a strict order (transitive, irreflexive),
    the version [LatestImageVersion] returns without error is ["0.0.0"] or
    one of the versions listed, and none of those listed is greater than
    it. Whatever Less is, an error comes with the version ["0.0.0"]. *)
Theorem LatestImageVersion_latest (imageDefinition : string) :
  ((forall a b c : string, Less a b = true -> Less b c = true -> Less a c = true) ->
   (forall a : string, Less a a = false) ->
   forall (r : string) (cmds : list (list string)),
     LatestImageVersion RunCommand decodeVersions Less imageDefinition =
     ((r, None), cmds) ->
     exists (out : string) (versions : list string),
       cmds = [[ "sig"; "image-version"; "list";
                 "--resource-group"; "AD"; "--gallery-name"; "AD";
                 "--gallery-image-definition"; imageDefinition ]] /\
       RunCommand
         [ "sig"; "image-version"; "list";
           "--resource-group"; "AD"; "--gallery-name"; "AD";
           "--gallery-image-definition"; imageDefinition ] = inl out /\
       decodeVersions out = inl versions /\
       (r = NullImageVersion \/ In r versions) /\
       (forall v : string, In v versions -> Less r v = false)) /\
  (forall (r : string) (e : listError) (cmds : list (list string)),
      LatestImageVersion RunCommand decodeVersions Less imageDefinition =
      ((r, Some e), cmds) ->
      r = NullImageVersion).
Proof.
  unfold LatestImageVersion. split.
  - intros Htrans Hirr r cmds.
    destruct (RunCommand _) as [out|text] eqn:Hr; [|discriminate].
    destruct (decodeVersions out) as [versions|cause] eqn:Hd; [|discriminate].
    destruct (fold_latestStep versions Htrans Hirr NullImageVersion []
                ltac:(intros v [])) as [H1 H2].
    destruct versions as [|x l]; cbn [List.length Nat.eqb].
    + intros [= <- <-]. exists out, [].
      split; [reflexivity|]. split; [reflexivity|]. split; [exact Hd|].
      split; [now left | intros v []].
    + intros [= <- <-]. exists out, (x :: l).
      split; [reflexivity|]. split; [reflexivity|]. split; [exact Hd|].
      split; [exact H1|]. intros v Hin. apply H2. now right.
  - intros r e cmds.
    destruct (RunCommand _) as [out|text]; [|now intros [= <- _ _]].
    destruct (decodeVersions out) as [versions|cause]; [|now intros [= <- _ _]].
    destruct (List.length versions =? 0)%nat; discriminate.
Qed.

End CommandFacts.

Lemma ImageList_rejects_witness :
  ImageList (fun _ => inl EmptyString) (fun _ => inl []) "noble" "24.04.1" =
  (([], Some (InvalidVersionFormat "24.04.1")), []) /\
  ImageList (fun _ => inl EmptyString) (fun _ => inl []) "noble" "2x.04" =
  (([], Some FailedToParseVersionYear), []).
Proof.
  destruct (ImageList_rejects (fun _ => inl EmptyString) (fun _ => inl []) "noble")
    as [H1 H2].
  split.
  - apply (H1 "24.04.1"). discriminate.
  - apply (H2 "2x" "04"); reflexivity.
Defined.

Lemma ImageList_old_codename_witness :
  snd (ImageList (fun _ => inl EmptyString) (fun _ => inl []) "jammy" "22.04") =
  [[ "vm"; "image"; "list"; "--publisher"; "Canonical"; "--all";
     "--offer"; "0001-com-ubuntu-minimal-jammy" ]].
Proof.
  apply (ImageList_old_codename (fun _ => inl EmptyString) (fun _ => inl [])
           "jammy" "22" "04" 22%Z); try reflexivity.
  right. now left.
Defined.

Lemma ImageList_offer_witness :
  snd (ImageList (fun _ => inl EmptyString) (fun _ => inl []) "noble" "24.04") =
  [[ "vm"; "image"; "list"; "--publisher"; "Canonical"; "--all";
     "--offer"; "ubuntu-24_04-lts"; "--sku"; "minimal" ]].
Proof.
  apply (ImageList_offer (fun _ => inl EmptyString) (fun _ => inl [])
           "noble" "24" "04" 24%Z); try reflexivity.
  intros [H|[H|[H|[]]]]; discriminate.
Defined.

Lemma shorter_trans (a b c : string) :
  shorter a b = true -> shorter b c = true -> shorter a c = true.
Proof.
  unfold shorter. rewrite !Nat.ltb_lt. apply Nat.lt_trans.
Qed.

Lemma shorter_irrefl (a : string) : shorter a a = false.
Proof. unfold shorter. apply Nat.ltb_irrefl. Qed.

Lemma LatestImageVersion_latest_witness :
  shorter "10.0.0" "1.0.0" = false /\ shorter "10.0.0" "2.0.0" = false.
Proof.
  destruct (proj1 (LatestImageVersion_latest (fun _ => inl EmptyString)
                     (fun _ => inl ["1.0.0"; "10.0.0"; "2.0.0"]) shorter
                     "ubuntu-desktop-noble")
              shorter_trans shorter_irrefl "10.0.0" _ eq_refl)
    as (out & versions & _ & _ & Hd & _ & Hmax).
  cbv beta in Hd. injection Hd as <-.
  split; apply Hmax; cbn [In]; auto.
Defined.

Lemma selectors_fail_witness :
  LatestDaily insertionSort
    [mkImage "arm64" "ubuntu-24_04-lts-daily" "Canonical" "minimal" "u4"
       "24.04.202406010"] =
  (Image_zero, Some NoDailyImageFound).
Proof.
  apply (proj1 (selectors_fail insertionSort _)).
  intros i [<-|[]]. reflexivity.
Defined.

Lemma domainToObjectPath_empty_witness :
  domainToObjectPath "." <> EmptyString.
Proof.
  intros H. apply (proj1 (domainToObjectPath_empty ".")) in H. discriminate.
Defined.
